(** * JAM Mission: cart, checkout, availability guard and slug assignment

    A shallow embedding of the request handlers of [core/views.py] and of the
    model helpers of [core/models.py].  Persistent tables are lists of
    records, the session is an explicit value threaded through every view,
    and each view returns its response together with the new table and
    session state. *)

From Stdlib Require Import ZArith List String Ascii Bool Lia Arith.
From Stdlib Require Import DecimalString DecimalNat.
Import ListNotations.

Local Open Scope string_scope.
Local Open Scope Z_scope.

Set Implicit Arguments.

(** ** Python values used by the views *)

Module Py.

(** [str(n)] for a non-negative integer. *)
Definition str_of_nat (n : nat) : string :=
  NilEmpty.string_of_uint (Nat.to_uint n).

(** [str(z)], as produced by an f-string. *)
Definition str_of_Z (z : Z) : string :=
  if z <? 0 then String "-" (str_of_nat (Z.abs_nat z))
  else str_of_nat (Z.to_nat z).

Definition is_digit (c : ascii) : bool :=
  let n := nat_of_ascii c in (Nat.leb 48 n && Nat.leb n 57)%bool.

Definition digit_value (c : ascii) : Z := Z.of_nat (nat_of_ascii c - 48).

(** The characters [str.strip()] removes on ASCII text. *)
Definition is_space (c : ascii) : bool :=
  let n := nat_of_ascii c in
  (Nat.eqb n 32 || (Nat.leb 9 n && Nat.leb n 13) || (Nat.leb 28 n && Nat.leb n 31))%bool.

Fixpoint lstrip (s : string) : string :=
  match s with
  | String c s' => if is_space c then lstrip s' else s
  | EmptyString => EmptyString
  end.

Fixpoint rev_string (acc s : string) : string :=
  match s with
  | EmptyString => acc
  | String c s' => rev_string (String c acc) s'
  end.

Definition strip (s : string) : string :=
  rev_string "" (lstrip (rev_string "" (lstrip s))).

(** Digits of an integer literal: a non-empty run of digits in which single
    underscores may separate digits.  [after_digit] tells whether the
    previous character was a digit. *)
Fixpoint digits (acc : Z) (after_digit : bool) (s : string) : option Z :=
  match s with
  | EmptyString => if after_digit then Some acc else None
  | String c s' =>
      if is_digit c then digits (10 * acc + digit_value c) true s'
      else if (Ascii.eqb c "_" && after_digit)%bool then digits acc false s'
      else None
  end.

(** The whitespace [int()] skips around an ASCII literal: space and the
    characters 9 to 13. *)
Definition is_int_space (c : ascii) : bool :=
  let n := nat_of_ascii c in
  (Nat.eqb n 32 || (Nat.leb 9 n && Nat.leb n 13))%bool.

Fixpoint int_lstrip (s : string) : string :=
  match s with
  | String c s' => if is_int_space c then int_lstrip s' else s
  | EmptyString => EmptyString
  end.

Definition int_strip (s : string) : string :=
  rev_string "" (int_lstrip (rev_string "" (int_lstrip s))).

(** [sys.get_int_max_str_digits()]: a literal with more digits than this
    is refused with [ValueError]. *)
Definition int_max_str_digits : Z := 4300.

Fixpoint count_digits (s : string) : Z :=
  match s with
  | EmptyString => 0
  | String c s' => (if is_digit c then 1 else 0) + count_digits s'
  end.


(** [int(s)] on an ASCII string: surrounding whitespace is ignored, one
    sign is allowed, the digits are limited in number; [None] stands for
    [ValueError]. *)
Definition int (s : string) : option Z :=
  let '(negative, body) :=
    match int_strip s with
    | String "-" s' => (true, s')
    | String "+" s' => (false, s')
    | s' => (false, s')
    end in
  if int_max_str_digits <? count_digits body then None
  else if negative then option_map Z.opp (digits 0 false body)
  else digits 0 false body.

(** A [dict] with string keys: insertion-ordered, one entry per key. *)
Definition dict (V : Type) := list (string * V).

Fixpoint dict_get {V} (d : dict V) (k : string) : option V :=
  match d with
  | [] => None
  | (k', v) :: d' => if String.eqb k' k then Some v else dict_get d' k
  end.

(** [d.get(k, default)] *)
Definition dict_get_default {V} (d : dict V) (k : string) (default : V) : V :=
  match dict_get d k with Some v => v | None => default end.

(** [d[k] = v]: an existing key keeps its position, a new key goes last. *)
Fixpoint dict_set {V} (d : dict V) (k : string) (v : V) : dict V :=
  match d with
  | [] => [(k, v)]
  | (k', v') :: d' =>
      if String.eqb k' k then (k, v) :: d' else (k', v') :: dict_set d' k v
  end.

Definition keys {V} (d : dict V) : list string := map fst d.

(** What every Python [dict] satisfies: keys are pairwise distinct. *)
Definition dict_wf {V} (d : dict V) : Prop := NoDup (keys d).

End Py.

(** ** Requests, sessions and responses *)

Inductive Method := GET | POST.

(** [request.POST]: submitted fields in order; [get] answers with the last
    value submitted for a key. *)
Definition QueryDict := list (string * string).

Fixpoint QueryDict_get (q : QueryDict) (k : string) : option string :=
  match q with
  | [] => None
  | (k', v) :: q' =>
      match QueryDict_get q' k with
      | Some v' => Some v'
      | None => if String.eqb k' k then Some v else None
      end
  end.

Record HttpRequest := mkRequest {
  method : Method;
  POST_data : QueryDict
}.

(** [request.session]: only the ['cart'] key is used; [None] when the key
    has never been set. *)
Definition Session := option (Py.dict Z).

(** [request.session.get('cart', {})] *)
Definition session_cart (s : Session) : Py.dict Z :=
  match s with Some c => c | None => [] end.

Definition is_POST (r : HttpRequest) : bool :=
  match method r with POST => true | GET => false end.

(** [form.errors]: pairs of field name and message. *)
Definition FormErrors := list (string * string).

Inductive HttpResponse :=
| Render (template : string) (success : bool) (errors : FormErrors)
| Redirect (name : string)
| Http404
| ServerError.

(** A form built as [SomeForm(request.POST or None)]: unbound when nothing
    was posted, otherwise cleaned by the form class. *)
Inductive Form (F : Type) :=
| Unbound
| Invalid (errors : FormErrors)
| Valid (cleaned_data : F).
Arguments Unbound {F}.
Arguments Invalid {F} errors.
Arguments Valid {F} cleaned_data.

Definition bind_form {F} (clean : QueryDict -> FormErrors + F) (data : QueryDict)
  : Form F :=
  match data with
  | [] => Unbound
  | _ => match clean data with inl e => Invalid e | inr f => Valid f end
  end.

Definition form_errors {F} (form : Form F) : FormErrors :=
  match form with Invalid e => e | _ => [] end.

(** ** core/models.py *)

Inductive BookingStatus := Pending | Confirmed | Rejected | Paid | Cancelled.

Inductive OrderStatus :=
| OrderPending | OrderConfirmed | OrderPaid | OrderShipped | OrderCancelled.

(** Only the columns the modelled functions read or write are kept.  [pk]
    is [None] on an instance that has not been saved yet and [Some] on
    every stored row. *)
Record Event := mkEvent {
  event_pk : option Z;
  event_title : string;
  event_slug : string;
  event_capacity : Z;
  event_is_active : bool
}.

Record Service := mkService {
  service_pk : option Z;
  service_name : string;
  service_slug : string
}.

(** [price] is a two-decimal [Decimal], kept in hundredths. *)
Record Product := mkProduct {
  product_pk : option Z;
  product_name : string;
  product_slug : string;
  product_price : Z;
  product_in_stock : bool
}.

Record Booking := mkBooking {
  booking_name : string;
  booking_email : string;
  booking_date : string;
  booking_tickets : Z;
  booking_event : option Z;
  booking_notes : string;
  booking_status : BookingStatus
}.

Record Order := mkOrder {
  order_product : option Z;
  order_name : string;
  order_email : string;
  order_quantity : Z;
  order_notes : string;
  order_status : OrderStatus
}.

Record NewsletterSubscriber := mkSubscriber { subscriber_email : string }.

Record DB := mkDB {
  events : list Event;
  bookings : list Booking;
  products : list Product;
  orders : list Order;
  subscribers : list NewsletterSubscriber
}.

Definition with_bookings (db : DB) (l : list Booking) : DB :=
  mkDB (events db) l (products db) (orders db) (subscribers db).
Definition with_orders (db : DB) (l : list Order) : DB :=
  mkDB (events db) (bookings db) (products db) l (subscribers db).
Definition with_subscribers (db : DB) (l : list NewsletterSubscriber) : DB :=
  mkDB (events db) (bookings db) (products db) (orders db) l.

(** The store is SQLite ([settings.DATABASES]): a [PositiveIntegerField]
    column carries [CHECK (col >= 0)] and holds a signed 64-bit integer; a
    value outside that range makes the insert raise. *)
Definition PositiveIntegerField_ok (z : Z) : bool :=
  ((0 <=? z) && (z <=? 9223372036854775807))%bool.

(** [booking.save()] of a new row; [None] when the store refuses it. *)
Definition Booking_save (db : DB) (b : Booking) : option DB :=
  if PositiveIntegerField_ok (booking_tickets b)
  then Some (with_bookings db (bookings db ++ [b])%list)
  else None.

(** [Order.objects.create(...)]; [None] when the store refuses it. *)
Definition Order_objects_create (db : DB) (o : Order) : option DB :=
  if PositiveIntegerField_ok (order_quantity o)
  then Some (with_orders db (orders db ++ [o])%list)
  else None.

(** Equality of two keys as SQL decides it: a missing key equals nothing. *)
Definition same_key (a b : option Z) : bool :=
  match a, b with
  | Some x, Some y => x =? y
  | _, _ => false
  end.

(** [status__in=['confirmed', 'paid']] *)
Definition counts_as_sold (s : BookingStatus) : bool :=
  match s with Confirmed | Paid => true | _ => false end.

(** [self.eventbookings.filter(status__in=['confirmed', 'paid'])] *)
Definition eventbookings_sold (db : DB) (e : Event) : list Booking :=
  filter (fun b => (same_key (booking_event b) (event_pk e)
                    && counts_as_sold (booking_status b))%bool)
         (bookings db).

(** [sum(...)] *)
Definition sum (l : list Z) : Z := fold_left Z.add l 0.

(** [Event.tickets_sold] *)
Definition tickets_sold (db : DB) (e : Event) : Z :=
  sum (map booking_tickets (eventbookings_sold db e)).

(** [Event.available_tickets] *)
Definition available_tickets (db : DB) (e : Event) : Z :=
  Z.max (event_capacity e - tickets_sold db e) 0.

(** The models that carry an automatically assigned slug. *)
Class SlugModel (A : Type) := {
  pk : A -> option Z;
  slug : A -> string;
  set_slug : A -> string -> A
}.

#[export] Instance Event_SlugModel : SlugModel Event := {|
  pk := event_pk;
  slug := event_slug;
  set_slug e s :=
    mkEvent (event_pk e) (event_title e) s (event_capacity e) (event_is_active e)
|}.

#[export] Instance Service_SlugModel : SlugModel Service := {|
  pk := service_pk;
  slug := service_slug;
  set_slug x s := mkService (service_pk x) (service_name x) s
|}.

#[export] Instance Product_SlugModel : SlugModel Product := {|
  pk := product_pk;
  slug := product_slug;
  set_slug p s :=
    mkProduct (product_pk p) (product_name p) s (product_price p) (product_in_stock p)
|}.

(** [.exclude(pk=pk)]: a row is left out when its key equals the
    instance's; with [pk = None] (a new instance) no stored row is. *)
Definition excluded (instance_pk row_pk : option Z) : bool :=
  same_key row_pk instance_pk.

(** [Model.objects.filter(slug=s).exclude(pk=pk).exists()] *)
Definition slug_taken {A} `{SlugModel A} (table : list A) (instance_pk : option Z)
  (s : string) : bool :=
  existsb (fun r => (String.eqb (slug r) s && negb (excluded instance_pk (pk r)))%bool)
          table.

(** [f"{slug_base}-{counter}"] *)
Definition suffixed (slug_base : string) (counter : nat) : string :=
  slug_base ++ "-" ++ Py.str_of_nat counter.

(** The [while] loop of [_unique_slugify], run for at most [fuel] tests of
    its condition; [None] when the fuel runs out. *)
Fixpoint slug_loop (fuel : nat) (taken : string -> bool)
  (slug_base slug : string) (counter : nat) : option string :=
  match fuel with
  | O => None
  | S fuel' =>
      if taken slug
      then slug_loop fuel' taken slug_base (suffixed slug_base counter) (S counter)
      else Some slug
  end.

Section Models.

(** [django.utils.text.slugify] *)
Variable slugify : string -> string.

Definition _unique_slugify {A} `{SlugModel A} (table : list A) (instance : A)
  (value : string) : option A :=
  let slug_base := slugify value in
  option_map (set_slug instance)
    (slug_loop (S (List.length table)) (slug_taken table (pk instance))
               slug_base slug_base 1).

(** The [pre_save] receivers.  [not instance.slug] holds for the empty
    string. *)
Definition blank (s : string) : bool :=
  match s with EmptyString => true | _ => false end.

Definition set_event_slug (table : list Event) (instance : Event) : option Event :=
  if blank (event_slug instance)
  then _unique_slugify table instance (event_title instance)
  else Some instance.

Definition set_service_slug (table : list Service) (instance : Service)
  : option Service :=
  if blank (service_slug instance)
  then _unique_slugify table instance (service_name instance)
  else Some instance.

Definition set_product_slug (table : list Product) (instance : Product)
  : option Product :=
  if blank (product_slug instance)
  then _unique_slugify table instance (product_name instance)
  else Some instance.

End Models.

(** ** core/views.py *)

(** [cleaned_data] of [BookingForm] (fields name, email, date, tickets,
    notes). *)
Record BookingFields := mkBookingFields {
  bf_name : string;
  bf_email : string;
  bf_date : string;
  bf_tickets : Z;
  bf_notes : string
}.

(** [cleaned_data] of [OrderForm] (fields name, email, quantity, notes). *)
Record OrderFields := mkOrderFields {
  of_name : string;
  of_email : string;
  of_quantity : Z;
  of_notes : string
}.

(** One entry of [items] in [cart_view]. *)
Record CartItem := mkItem {
  item_product : Product;
  item_quantity : Z;
  item_subtotal : Z
}.

(** What [cart_view] hands to its template. *)
Record CartPage := mkCartPage {
  page_items : list CartItem;
  page_total : Z;
  page_success : bool;
  page_errors : FormErrors
}.

(** [get_object_or_404(Product, slug=slug)] *)
Definition get_product (table : list Product) (s : string) : option Product :=
  find (fun p => String.eqb (product_slug p) s) table.

(** [Product.objects.filter(slug=slug, in_stock=True).first()] *)
Definition first_in_stock (table : list Product) (s : string) : option Product :=
  find (fun p => (String.eqb (product_slug p) s && product_in_stock p)%bool) table.

(** [get_object_or_404(Event, slug=slug, is_active=True)] *)
Definition get_active_event (table : list Event) (s : string) : option Event :=
  find (fun e => (String.eqb (event_slug e) s && event_is_active e)%bool) table.

(** [Event.objects.filter(slug=event_slug).first()] *)
Definition first_event (table : list Event) (s : string) : option Event :=
  find (fun e => String.eqb (event_slug e) s) table.

(** The quantity [cart_add] reads from the request:
    [int(request.POST.get('quantity', 1))], with 1 on [ValueError]. *)
Definition requested_quantity (request : HttpRequest) : Z :=
  match QueryDict_get (POST_data request) "quantity" with
  | None => 1
  | Some s => match Py.int s with Some z => z | None => 1 end
  end.

Definition cart_add (db : DB) (session : Session) (request : HttpRequest)
  (slug : string) : HttpResponse * Session :=
  match get_product (products db) slug with
  | None => (Http404, session)
  | Some _ =>
      let qty := requested_quantity request in
      let cart := session_cart session in
      let cart := Py.dict_set cart slug (Py.dict_get_default cart slug 0 + qty) in
      (Redirect "cart", Some cart)
  end.

(** [Decimal] arithmetic in the default context, on amounts counted in
    hundredths: the exact result of an operation is rounded to 28
    significant digits, ties going to the even neighbour.  Every amount
    that occurs is a whole number of hundredths: a price has two decimals,
    a quantity none, and rounding only removes low digits.  The exponent
    limit of the context is not modelled; it lies beyond 10^999999. *)
Module PyDecimal.

Definition prec_bound : Z := 10 ^ 28.

(** The least power of ten [u >= unit] with [a < 10^28 * u], searched with
    [fuel] tests. *)
Fixpoint rounding_unit (fuel : nat) (a : Z) (unit : Z) : Z :=
  match fuel with
  | O => unit
  | S fuel' =>
      if a <? prec_bound * unit then unit
      else rounding_unit fuel' a (10 * unit)
  end.

(** [a >= 0] rounded to a multiple of [unit], half to even. *)
Definition round_half_even (a unit : Z) : Z :=
  let q := a / unit in
  let r := a mod unit in
  if 2 * r <? unit then q * unit
  else if unit <? 2 * r then (q + 1) * unit
  else if Z.even q then q * unit else (q + 1) * unit.

(** Rounding to the context precision. *)
Definition round (z : Z) : Z :=
  let a := Z.abs z in
  Z.sgn z * round_half_even a (rounding_unit (S (Z.to_nat (Z.log2 a))) a 1).

(** [x * n] for a [Decimal] [x] and an [int] [n]. *)
Definition mul (x n : Z) : Z := round (x * n).

(** [x + y]; also [0 + y] for the [int] zero the total starts from. *)
Definition add (x y : Z) : Z := round (x + y).

End PyDecimal.

(** The loop of [cart_view] that builds [items] and [total]. *)
Definition resolve_step (table : list Product) (acc : list CartItem * Z)
  (entry : string * Z) : list CartItem * Z :=
  let '(items, total) := acc in
  let '(slug, qty) := entry in
  match first_in_stock table slug with
  | Some product =>
      let subtotal := PyDecimal.mul (product_price product) qty in
      ((items ++ [mkItem product qty subtotal])%list, PyDecimal.add total subtotal)
  | None => (items, total)
  end.

Definition resolve (table : list Product) (cart : Py.dict Z) : list CartItem * Z :=
  fold_left (resolve_step table) cart ([], 0).

(** The loop of [cart_view] that creates one [Order] per item.  The flag
    is [false] when an insert raised; the rows created before it stay. *)
Fixpoint create_orders (db : DB) (items : list CartItem) (name email notes : string)
  : DB * bool :=
  match items with
  | [] => (db, true)
  | item :: rest =>
      match Order_objects_create db
              (mkOrder (product_pk (item_product item)) name email
                       (item_quantity item) notes OrderPending) with
      | Some db' => create_orders db' rest name email notes
      | None => (db, false)
      end
  end.

(** Responses of [cart_view]: the rendered page, or the exception that
    escaped it. *)
Inductive CartResponse :=
| CartRendered (page : CartPage)
| CartError.

(** [NewsletterSubscriber.objects.get_or_create(email=email)] *)
Definition get_or_create (db : DB) (email : string) : DB * bool :=
  if existsb (fun s => String.eqb (subscriber_email s) email) (subscribers db)
  then (db, false)
  else (with_subscribers db (subscribers db ++ [mkSubscriber email])%list, true).

Section Views.

(** Field cleaning of the three forms used here is Django's; each takes the
    posted data to its errors or to its [cleaned_data]. *)
Variable BookingForm_clean : QueryDict -> FormErrors + BookingFields.
Variable OrderForm_clean : QueryDict -> FormErrors + OrderFields.
Variable NewsletterForm_clean_fields : QueryDict -> FormErrors + string.

(** [form.save(commit=False)] of a [BookingForm]; [status] takes its
    default. *)
Definition booking_of_form (f : BookingFields) (event : option Z) : Booking :=
  mkBooking (bf_name f) (bf_email f) (bf_date f) (bf_tickets f) event
            (bf_notes f) Pending.

(** [f'Only {event.available_tickets} tickets are available.'] *)
Definition only_available (n : Z) : string :=
  "Only " ++ Py.str_of_Z n ++ " tickets are available.".

Definition event_detail (db : DB) (request : HttpRequest) (slug : string)
  : HttpResponse * DB :=
  match get_active_event (events db) slug with
  | None => (Http404, db)
  | Some event =>
      let form := bind_form BookingForm_clean (POST_data request) in
      match is_POST request, form with
      | true, Valid f =>
          let booking := booking_of_form f (event_pk event) in
          let tickets_requested := booking_tickets booking in
          if tickets_requested >? available_tickets db event
          then (Render "event_detail.html" false
                       [("tickets", only_available (available_tickets db event))],
                db)
          else
            match Booking_save db booking with
            | Some db' => (Render "event_detail.html" true [], db')
            | None => (ServerError, db)
            end
      | _, _ => (Render "event_detail.html" false (form_errors form), db)
      end
  end.

Definition booking (db : DB) (request : HttpRequest) : HttpResponse * DB :=
  let form := bind_form BookingForm_clean (POST_data request) in
  match is_POST request, form with
  | true, Valid f =>
      let event :=
        match QueryDict_get (POST_data request) "event_slug" with
        | Some (String c s) =>
            match first_event (events db) (String c s) with
            | Some e => event_pk e
            | None => None
            end
        | _ => None
        end in
      match Booking_save db (booking_of_form f event) with
      | Some db' => (Render "booking.html" true [], db')
      | None => (ServerError, db)
      end
  | _, _ => (Render "booking.html" false (form_errors form), db)
  end.

(** [NewsletterForm] is a [ModelForm] over a model whose [email] column is
    [unique=True]: after the field is cleaned, [is_valid()] runs the
    model's uniqueness validation against the stored rows. *)
Definition NewsletterForm_clean (db : DB) (data : QueryDict) : FormErrors + string :=
  match NewsletterForm_clean_fields data with
  | inl e => inl e
  | inr email =>
      if existsb (fun s => String.eqb (subscriber_email s) email) (subscribers db)
      then inl [("email", "Newsletter subscriber with this Email already exists.")]
      else inr email
  end.

Definition newsletter_subscribe (db : DB) (request : HttpRequest)
  : HttpResponse * DB :=
  let form := bind_form (NewsletterForm_clean db) (POST_data request) in
  match is_POST request, form with
  | true, Valid email =>
      let '(db', _) := get_or_create db email in
      (Render "newsletter_signup.html" true [], db')
  | _, _ => (Render "newsletter_signup.html" false (form_errors form), db)
  end.

Definition cart_view (db : DB) (session : Session) (request : HttpRequest)
  : CartResponse * DB * Session :=
  let cart := session_cart session in
  let '(items, total) := resolve (products db) cart in
  let form := bind_form OrderForm_clean (POST_data request) in
  match is_POST request, items, form with
  | true, _ :: _, Valid f =>
      match create_orders db items (of_name f) (of_email f) (of_notes f) with
      | (db', true) => (CartRendered (mkCartPage [] 0 true []), db', Some [])
      | (db', false) => (CartError, db', session)
      end
  | _, _, _ =>
      (CartRendered (mkCartPage items total false (form_errors form)), db, session)
  end.

End Views.

(** ** Reference instances of the framework functions

    Concrete stand-ins for the functions taken as parameters above, used to
    run the handlers on explicit requests. *)

Module Reference.

Definition lower (c : ascii) : ascii :=
  let n := nat_of_ascii c in
  if (Nat.leb 65 n && Nat.leb n 90)%bool then ascii_of_nat (n + 32) else c.

Definition is_word (c : ascii) : bool :=
  let n := nat_of_ascii c in
  (Py.is_digit c || (Nat.leb 97 n && Nat.leb n 122)
   || (Nat.leb 65 n && Nat.leb n 90) || Nat.eqb n 95)%bool.

Definition is_separator (c : ascii) : bool :=
  (Ascii.eqb c "-" || Py.is_space c)%bool.

(** [re.sub(r'[^\w\s-]', '', value.lower())] *)
Fixpoint keep_word_chars (s : string) : string :=
  match s with
  | EmptyString => EmptyString
  | String c s' =>
      let c := lower c in
      if (is_word c || is_separator c)%bool
      then String c (keep_word_chars s') else keep_word_chars s'
  end.

(** [re.sub(r'[-\s]+', '-', value)] *)
Fixpoint collapse (in_run : bool) (s : string) : string :=
  match s with
  | EmptyString => EmptyString
  | String c s' =>
      if is_separator c
      then if in_run then collapse true s' else String "-" (collapse true s')
      else String c (collapse false s')
  end.

Fixpoint lstrip_dash (s : string) : string :=
  match s with
  | String c s' =>
      if (Ascii.eqb c "-" || Ascii.eqb c "_")%bool then lstrip_dash s' else s
  | EmptyString => EmptyString
  end.

(** [slugify] as Django computes it on ASCII text. *)
Definition slugify (value : string) : string :=
  let v := collapse false (keep_word_chars value) in
  Py.rev_string "" (lstrip_dash (Py.rev_string "" (lstrip_dash v))).

Fixpoint contains (c : ascii) (s : string) : bool :=
  match s with
  | EmptyString => false
  | String c' s' => (Ascii.eqb c c' || contains c s')%bool
  end.

Definition field (data : QueryDict) (k : string) : string :=
  match QueryDict_get data k with Some v => v | None => "" end.

Definition clean_email (data : QueryDict) : FormErrors + string :=
  let v := Py.strip (field data "email") in
  if contains "@" v then inr v else inl [("email", "Enter a valid email address.")].

Definition required (data : QueryDict) (k : string) : FormErrors + string :=
  match Py.strip (field data k) with
  | EmptyString => inl [(k, "This field is required.")]
  | v => inr v
  end.

Definition clean_count (data : QueryDict) (k : string) : FormErrors + Z :=
  match Py.int (field data k) with
  | Some z => if PositiveIntegerField_ok z then inr z
              else inl [(k, "Ensure this value is in range.")]
  | None => inl [(k, "Enter a whole number.")]
  end.

Definition BookingForm_clean (data : QueryDict) : FormErrors + BookingFields :=
  match required data "name", clean_email data, required data "date",
        clean_count data "tickets" with
  | inr n, inr e, inr d, inr t => inr (mkBookingFields n e d t (field data "notes"))
  | inl e, _, _, _ | _, inl e, _, _ | _, _, inl e, _ | _, _, _, inl e => inl e
  end.

Definition OrderForm_clean (data : QueryDict) : FormErrors + OrderFields :=
  match required data "name", clean_email data, clean_count data "quantity" with
  | inr n, inr e, inr q => inr (mkOrderFields n e q (field data "notes"))
  | inl e, _, _ | _, inl e, _ | _, _, inl e => inl e
  end.

End Reference.

(** ** Sample data *)

Definition fresh_eggs : Product := mkProduct (Some 1) "Fresh Eggs" "fresh-eggs" 500 true.
Definition goat_milk : Product := mkProduct (Some 2) "Goat Milk" "goat-milk" 350 false.
Definition harvest_fest : Event := mkEvent (Some 1) "Harvest Fest" "harvest-fest" 10 true.

Definition sample_db : DB :=
  mkDB [harvest_fest]
       [mkBooking "Ann" "ann@x.com" "2025-10-01" 8 (Some 1) "" Confirmed]
       [fresh_eggs; goat_milk] [] [].

Definition post (data : QueryDict) : HttpRequest := mkRequest POST data.

Definition eggs_db : DB :=
  mkDB [] [] [mkProduct (Some 1) "Eggs" "eggs" 500 true] [] [].

Definition two_products_db : DB :=
  mkDB [] [] [fresh_eggs; mkProduct (Some 3) "Seedlings" "seedlings" 250 true] [] [].

Definition jane_order : QueryDict :=
  [("name", "Jane"); ("email", "jane@x.com"); ("quantity", "1")].

Definition bob_booking : QueryDict :=
  [("name", "Bob"); ("email", "bob@x.com"); ("date", "2025-10-02"); ("tickets", "3")].

Definition signup : HttpRequest := post [("email", "a@example.com")].

(** ** Notions used in the statements *)



(** The items one cart entry contributes. *)
Definition entry_items (table : list Product) (entry : string * Z) : list CartItem :=
  match first_in_stock table (fst entry) with
  | Some product =>
      [mkItem product (snd entry) (PyDecimal.mul (product_price product) (snd entry))]
  | None => []
  end.

(** The running total of [cart_view] over a list of subtotals. *)
Definition running_total (subtotals : list Z) : Z :=
  fold_left PyDecimal.add subtotals 0.

(** The size of the amounts a list of items involves: the sum of the
    magnitudes of [price * quantity]. *)
Definition gross_amount (items : list CartItem) : Z :=
  sum (map (fun item => Z.abs (product_price (item_product item) * item_quantity item))
           items).

(** The same amounts added up without any rounding. *)
Definition exact_amount (items : list CartItem) : Z :=
  sum (map (fun item => product_price (item_product item) * item_quantity item) items).


(** A quantity that shows where [Decimal] rounds. *)
Definition huge_quantity : Z := 10 ^ 28 + 1.

Definition huge_order : QueryDict := [("quantity", "10000000000000000000000000001")].

Definition resolvable (table : list Product) (s : string) : bool :=
  match first_in_stock table s with Some _ => true | None => false end.

(** The [Order] row [cart_view] creates for one item. *)
Definition order_of_item (f : OrderFields) (item : CartItem) : Order :=
  mkOrder (product_pk (item_product item)) (of_name f) (of_email f)
          (item_quantity item) (of_notes f) OrderPending.

Definition storable (item : CartItem) : Prop :=
  PositiveIntegerField_ok (item_quantity item) = true.

(** The slugs the loop of [_unique_slugify] tries, in order. *)
Definition candidate (slug_base : string) (k : nat) : string :=
  match k with
  | O => slug_base
  | S _ => suffixed slug_base k
  end.

(** [s] is the slug of a stored row other than the instance's own. *)
Definition held_by_other {A} `{SlugModel A} (table : list A) (instance : A)
  (s : string) : Prop :=
  exists r, In r table /\ slug r = s
            /\ ~ (exists key, pk instance = Some key /\ pk r = Some key).

(** What a [pre_save] receiver does, given the field it slugifies. *)
Definition assigns_unique_slug {A} `{SlugModel A} (slugify : string -> string)
  (handler : list A -> A -> option A) (source : A -> string) : Prop :=
  forall table instance,
    (slug instance <> "" -> handler table instance = Some instance)
    /\ (slug instance = "" ->
        exists k, (k <= List.length table)%nat
          /\ handler table instance
               = Some (set_slug instance (candidate (slugify (source instance)) k))
          /\ ~ held_by_other table instance
                 (candidate (slugify (source instance)) k)
          /\ forall i, (i < k)%nat ->
               held_by_other table instance
                 (candidate (slugify (source instance)) i))
    /\ (slug instance = "" ->
        (forall r, In r table -> slug r = slugify (source instance) ->
                   exists key, pk instance = Some key /\ pk r = Some key) ->
        handler table instance
          = Some (set_slug instance (slugify (source instance)))).

(** ** Accounts and the staff views of core/views.py *)

(** [request.user] is [None] for an anonymous visitor.  Only the attributes
    the views read are kept. *)
Record User := mkUser {
  username : string;
  is_superuser : bool;
  groups : list string
}.

(** [user.groups.filter(name=group_name).exists()] *)
Definition in_group (user : User) (group_name : string) : bool :=
  existsb (String.eqb group_name) (groups user).

(** [templatetags/group_filters.py: has_group].  An anonymous user has no
    group. *)
Definition has_group (user : option User) (group_name : string) : bool :=
  match user with
  | Some u => in_group u group_name
  | None => false
  end.

(** [settings.LOGIN_URL] is not set by the project; this is Django's
    default, where [login_required] sends anonymous visitors. *)
Definition LOGIN_URL : string := "/accounts/login/".

(** Outcome of [login_view]: the user logged in and the named route the
    visitor is sent to, or the login page, with the error message if one
    was flashed. *)
Inductive LoginResult :=
| LoggedIn (user : User) (redirect_to : string)
| LoginPage (message : option string).

(** Responses of the staff views.  [StaffForm] is a rendered form page with
    its [editing] flag and the form's errors; [StaffError] is an exception
    that escaped the view. *)
Inductive StaffResponse :=
| StaffPage (template : string)
| StaffForm (template : string) (editing : bool) (errors : FormErrors)
| StaffRedirect (name : string)
| StaffNotFound
| StaffError.

(** [cleaned_data] of [ProductForm], [EventForm] and [ServiceForm],
    restricted to the columns kept in the records. *)
Record ProductFields := mkProductFields {
  pf_name : string;
  pf_price : Z;
  pf_in_stock : bool
}.

Record EventFields := mkEventFields {
  evf_title : string;
  evf_capacity : Z;
  evf_is_active : bool
}.

Record ServiceFields := mkServiceFields { sf_name : string }.

Definition with_products (db : DB) (l : list Product) : DB :=
  mkDB (events db) (bookings db) l (orders db) (subscribers db).
Definition with_events (db : DB) (l : list Event) : DB :=
  mkDB l (bookings db) (products db) (orders db) (subscribers db).

Definition Product_set_pk (p : Product) (key : Z) : Product :=
  mkProduct (Some key) (product_name p) (product_slug p) (product_price p)
            (product_in_stock p).
Definition Event_set_pk (e : Event) (key : Z) : Event :=
  mkEvent (Some key) (event_title e) (event_slug e) (event_capacity e)
          (event_is_active e).
Definition Service_set_pk (x : Service) (key : Z) : Service :=
  mkService (Some key) (service_name x) (service_slug x).

(** Writing an instance to its table, after the [pre_save] receiver has
    run.  The [unique] constraint on [slug] makes the write raise ([None])
    when another row holds the instance's slug.  An instance whose key is
    stored replaces its row; any other instance is appended, taking
    [new_pk], the key the store assigns, when it has none. *)
Definition write_row {A} `{SlugModel A} (set_pk : A -> Z -> A) (table : list A)
  (instance : A) (new_pk : Z) : option (list A) :=
  if slug_taken table (pk instance) (slug instance) then None
  else if existsb (fun r => excluded (pk instance) (pk r)) table
  then Some (map (fun r => if excluded (pk instance) (pk r) then instance else r)
                 table)
  else Some (table ++ [match pk instance with
                       | Some _ => instance
                       | None => set_pk instance new_pk
                       end])%list.

(** [tech_dashboard], behind [login_required]. *)
Definition tech_dashboard (user : option User) : StaffResponse :=
  match user with
  | None => StaffRedirect LOGIN_URL
  | Some u =>
      if negb (is_superuser u || in_group u "technical_admin")
      then StaffRedirect "home"
      else StaffPage "tech_dashboard.html"
  end.

(** [owner_dashboard], behind [login_required]; the lists handed to the
    template are left out. *)
Definition owner_dashboard (user : option User) : StaffResponse :=
  match user with
  | None => StaffRedirect LOGIN_URL
  | Some u =>
      if (negb (in_group u "owner") && negb (is_superuser u))%bool
      then StaffRedirect "home"
      else StaffPage "owner_dashboard.html"
  end.

(** The test that opens the six owner views:
    [request.user.is_superuser or request.user.groups.filter(name='owner').exists()] *)
Definition may_manage (u : User) : bool :=
  (is_superuser u || in_group u "owner")%bool.

Section StaffViews.

(** [django.utils.text.slugify], [django.contrib.auth.authenticate] and the
    field cleaning of the forms are Django's. *)
Variable slugify : string -> string.
Variable authenticate : option string -> option string -> option User.
Variable OrderForm_clean : QueryDict -> FormErrors + OrderFields.
Variable ProductForm_clean : QueryDict -> FormErrors + ProductFields.
Variable EventForm_clean : QueryDict -> FormErrors + EventFields.
Variable ServiceForm_clean : QueryDict -> FormErrors + ServiceFields.

(** [instance.save()]: the [pre_save] receiver, then the write. *)
Definition Product_save (table : list Product) (instance : Product) (new_pk : Z)
  : option (list Product) :=
  match set_product_slug slugify table instance with
  | Some instance' => write_row Product_set_pk table instance' new_pk
  | None => None
  end.

Definition Event_save (table : list Event) (instance : Event) (new_pk : Z)
  : option (list Event) :=
  match set_event_slug slugify table instance with
  | Some instance' => write_row Event_set_pk table instance' new_pk
  | None => None
  end.

Definition Service_save (table : list Service) (instance : Service) (new_pk : Z)
  : option (list Service) :=
  match set_service_slug slugify table instance with
  | Some instance' => write_row Service_set_pk table instance' new_pk
  | None => None
  end.

Definition login_view (request : HttpRequest) : LoginResult :=
  match method request with
  | POST =>
      match authenticate (QueryDict_get (POST_data request) "username")
                         (QueryDict_get (POST_data request) "password") with
      | Some user =>
          if (is_superuser user || in_group user "technical_admin")%bool
          then LoggedIn user "tech_dashboard"
          else if in_group user "owner"
          then LoggedIn user "owner_dashboard"
          else LoggedIn user "home"
      | None => LoginPage (Some "Invalid username or password")
      end
  | GET => LoginPage None
  end.

Definition product_detail (db : DB) (request : HttpRequest) (slug : string)
  : HttpResponse * DB :=
  match first_in_stock (products db) slug with
  | None => (Http404, db)
  | Some product =>
      let form := bind_form OrderForm_clean (POST_data request) in
      match is_POST request, form with
      | true, Valid f =>
          let order := mkOrder (product_pk product) (of_name f) (of_email f)
                               (of_quantity f) (of_notes f) OrderPending in
          match Order_objects_create db order with
          | Some db' => (Render "product_detail.html" true [], db')
          | None => (ServerError, db)
          end
      | _, _ => (Render "product_detail.html" false (form_errors form), db)
      end
  end.

Definition product_create (db : DB) (user : option User) (request : HttpRequest)
  (new_pk : Z) : StaffResponse * DB :=
  match user with
  | None => (StaffRedirect LOGIN_URL, db)
  | Some u =>
      if negb (may_manage u) then (StaffRedirect "home", db)
      else
        let form := bind_form ProductForm_clean (POST_data request) in
        match is_POST request, form with
        | true, Valid f =>
            let instance :=
              mkProduct None (pf_name f) "" (pf_price f) (pf_in_stock f) in
            match Product_save (products db) instance new_pk with
            | Some table => (StaffRedirect "owner_dashboard", with_products db table)
            | None => (StaffError, db)
            end
        | _, _ => (StaffForm "product_form.html" false (form_errors form), db)
        end
  end.

Definition product_edit (db : DB) (user : option User) (request : HttpRequest)
  (slug : string) (new_pk : Z) : StaffResponse * DB :=
  match user with
  | None => (StaffRedirect LOGIN_URL, db)
  | Some u =>
      if negb (may_manage u) then (StaffRedirect "home", db)
      else
        match get_product (products db) slug with
        | None => (StaffNotFound, db)
        | Some product =>
            let form := bind_form ProductForm_clean (POST_data request) in
            match is_POST request, form with
            | true, Valid f =>
                let instance :=
                  mkProduct (product_pk product) (pf_name f) (product_slug product)
                            (pf_price f) (pf_in_stock f) in
                match Product_save (products db) instance new_pk with
                | Some table =>
                    (StaffRedirect "owner_dashboard", with_products db table)
                | None => (StaffError, db)
                end
            | _, _ => (StaffForm "product_form.html" true (form_errors form), db)
            end
        end
  end.

Definition event_create (db : DB) (user : option User) (request : HttpRequest)
  (new_pk : Z) : StaffResponse * DB :=
  match user with
  | None => (StaffRedirect LOGIN_URL, db)
  | Some u =>
      if negb (may_manage u) then (StaffRedirect "home", db)
      else
        let form := bind_form EventForm_clean (POST_data request) in
        match is_POST request, form with
        | true, Valid f =>
            let instance :=
              mkEvent None (evf_title f) "" (evf_capacity f) (evf_is_active f) in
            match Event_save (events db) instance new_pk with
            | Some table => (StaffRedirect "owner_dashboard", with_events db table)
            | None => (StaffError, db)
            end
        | _, _ => (StaffForm "event_form.html" false (form_errors form), db)
        end
  end.

Definition event_edit (db : DB) (user : option User) (request : HttpRequest)
  (slug : string) (new_pk : Z) : StaffResponse * DB :=
  match user with
  | None => (StaffRedirect LOGIN_URL, db)
  | Some u =>
      if negb (may_manage u) then (StaffRedirect "home", db)
      else
        match first_event (events db) slug with
        | None => (StaffNotFound, db)
        | Some event =>
            let form := bind_form EventForm_clean (POST_data request) in
            match is_POST request, form with
            | true, Valid f =>
                let instance :=
                  mkEvent (event_pk event) (evf_title f) (event_slug event)
                          (evf_capacity f) (evf_is_active f) in
                match Event_save (events db) instance new_pk with
                | Some table => (StaffRedirect "owner_dashboard", with_events db table)
                | None => (StaffError, db)
                end
            | _, _ => (StaffForm "event_form.html" true (form_errors form), db)
            end
        end
  end.

(** The services table is not part of [DB]; the two service views take and
    return it directly. *)
Definition service_create (table : list Service) (user : option User)
  (request : HttpRequest) (new_pk : Z) : StaffResponse * list Service :=
  match user with
  | None => (StaffRedirect LOGIN_URL, table)
  | Some u =>
      if negb (may_manage u) then (StaffRedirect "home", table)
      else
        let form := bind_form ServiceForm_clean (POST_data request) in
        match is_POST request, form with
        | true, Valid f =>
            match Service_save table (mkService None (sf_name f) "") new_pk with
            | Some table' => (StaffRedirect "owner_dashboard", table')
            | None => (StaffError, table)
            end
        | _, _ => (StaffForm "service_form.html" false (form_errors form), table)
        end
  end.

Definition service_edit (table : list Service) (user : option User)
  (request : HttpRequest) (slug : string) (new_pk : Z)
  : StaffResponse * list Service :=
  match user with
  | None => (StaffRedirect LOGIN_URL, table)
  | Some u =>
      if negb (may_manage u) then (StaffRedirect "home", table)
      else
        match find (fun x => String.eqb (service_slug x) slug) table with
        | None => (StaffNotFound, table)
        | Some service =>
            let form := bind_form ServiceForm_clean (POST_data request) in
            match is_POST request, form with
            | true, Valid f =>
                match Service_save table
                        (mkService (service_pk service) (sf_name f)
                                   (service_slug service)) new_pk with
                | Some table' => (StaffRedirect "owner_dashboard", table')
                | None => (StaffError, table)
                end
            | _, _ => (StaffForm "service_form.html" true (form_errors form), table)
            end
        end
  end.

End StaffViews.

(** Saving a batch of new products one after the other, each with the key
    the store assigns to it; [None] as soon as one save raises. *)
Fixpoint save_products (slugify : string -> string) (table : list Product)
  (batch : list (Product * Z)) : option (list Product) :=
  match batch with
  | [] => Some table
  | (instance, new_pk) :: rest =>
      match Product_save slugify table instance new_pk with
      | Some table' => save_products slugify table' rest
      | None => None
      end
  end.

(** Stand-ins for the remaining forms and for the user store. *)
Definition plain_ProductForm_clean (data : QueryDict) : FormErrors + ProductFields :=
  match Reference.required data "name", Reference.clean_count data "price" with
  | inr n, inr p =>
      inr (mkProductFields n p
             (match QueryDict_get data "in_stock" with Some _ => true | None => false end))
  | inl e, _ | _, inl e => inl e
  end.

Definition plain_EventForm_clean (data : QueryDict) : FormErrors + EventFields :=
  match Reference.required data "title", Reference.clean_count data "capacity" with
  | inr t, inr c =>
      inr (mkEventFields t c
             (match QueryDict_get data "is_active" with Some _ => true | None => false end))
  | inl e, _ | _, inl e => inl e
  end.

Definition plain_ServiceForm_clean (data : QueryDict) : FormErrors + ServiceFields :=
  match Reference.required data "name" with
  | inr n => inr (mkServiceFields n)
  | inl e => inl e
  end.

Definition olive : User := mkUser "olive" false ["owner"].
Definition tess : User := mkUser "tess" false ["technical_admin"].
Definition root_user : User := mkUser "root" true [].
Definition guest : User := mkUser "guest" false [].

Definition plain_authenticate (name password : option string) : option User :=
  match name, password with
  | Some "olive", Some "pw" => Some olive
  | Some "tess", Some "pw" => Some tess
  | Some "guest", Some "pw" => Some guest
  | _, _ => None
  end.

(** A table with an event that is no longer active. *)
Definition barn_dance : Event := mkEvent (Some 2) "Barn Dance" "barn-dance" 40 false.

Definition closed_db : DB := mkDB [harvest_fest; barn_dance] [] [] [] [].

Definition two_tickets : QueryDict :=
  [("name", "Cy"); ("email", "cy@x.com"); ("date", "2025-10-03"); ("tickets", "2")].

(** What a booking view may do to the tables: nothing, or append one
    pending booking. *)
Definition appends_pending_booking (db db' : DB) : Prop :=
  events db' = events db /\ products db' = products db
  /\ orders db' = orders db /\ subscribers db' = subscribers db
  /\ (bookings db' = bookings db
      \/ exists b, bookings db' = (bookings db ++ [b])%list
                   /\ booking_status b = Pending).

Definition catalog_db : DB :=
  mkDB [harvest_fest] [] [fresh_eggs; goat_milk] [] [].

Definition new_eggs : QueryDict := [("name", "Fresh eggs!"); ("price", "450"); ("in_stock", "on")].

Definition new_fest : QueryDict := [("title", "Harvest Fest"); ("capacity", "25"); ("is_active", "on")].

Definition new_tour : QueryDict := [("name", "Farm Tour")].

(** The row an edit leaves in place of [old]. *)
Definition edited_product (old : Product) (f : ProductFields) : Product :=
  mkProduct (product_pk old) (pf_name f) (product_slug old) (pf_price f)
            (pf_in_stock f).

Definition rename_eggs : QueryDict := [("name", "Organic Eggs"); ("price", "650"); ("in_stock", "on")].

(** A new product as [ProductForm] hands it to [save()]: no key, no slug. *)
Definition unsaved (name : string) : Product := mkProduct None name "" 100 true.

(** ** The blog views *)

(** [BlogPost], without its cover image. *)
Record BlogPost := mkBlogPost {
  post_pk : option Z;
  post_title : string;
  post_content : string
}.

Record BlogFields := mkBlogFields {
  blf_title : string;
  blf_content : string
}.

(** [get_object_or_404(BlogPost, id=id)] *)
Definition get_post (posts : list BlogPost) (id : Z) : option BlogPost :=
  find (fun p => same_key (post_pk p) (Some id)) posts.

(** [form.save()] of a [BlogForm]: a stored post is rewritten in place, a
    new one is appended with the key the store assigns. *)
Definition BlogPost_save (posts : list BlogPost) (instance : BlogPost) (new_pk : Z)
  : list BlogPost :=
  if existsb (fun r => same_key (post_pk r) (post_pk instance)) posts
  then map (fun r => if same_key (post_pk r) (post_pk instance) then instance else r)
           posts
  else (posts ++ [match post_pk instance with
                  | Some _ => instance
                  | None => mkBlogPost (Some new_pk) (post_title instance)
                                       (post_content instance)
                  end])%list.

(** [blog_edit], behind [login_required]; [id] is [None] on the route
    [blog/new/].  The flag of [StaffForm] tells whether a post was handed to
    the template. *)
Definition blog_edit (BlogForm_clean : QueryDict -> FormErrors + BlogFields)
  (posts : list BlogPost) (user : option User) (request : HttpRequest)
  (id : option Z) (new_pk : Z) : StaffResponse * list BlogPost :=
  match user with
  | None => (StaffRedirect LOGIN_URL, posts)
  | Some _ =>
      let continue (post : option BlogPost) :=
        let form := bind_form BlogForm_clean (POST_data request) in
        match is_POST request, form with
        | true, Valid f =>
            let instance :=
              mkBlogPost (match post with Some p => post_pk p | None => None end)
                         (blf_title f) (blf_content f) in
            (StaffRedirect "blog_list", BlogPost_save posts instance new_pk)
        | _, _ =>
            (StaffForm "blog_edit.html"
                       (match post with Some _ => true | None => false end)
                       (form_errors form),
             posts)
        end in
      match id with
      | None => continue None
      | Some i =>
          match get_post posts i with
          | None => (StaffNotFound, posts)
          | Some post => continue (Some post)
          end
      end
  end.

Definition plain_BlogForm_clean (data : QueryDict) : FormErrors + BlogFields :=
  match Reference.required data "title", Reference.required data "content" with
  | inr t, inr c => inr (mkBlogFields t c)
  | inl e, _ | _, inl e => inl e
  end.

Definition spring_post : BlogPost := mkBlogPost (Some 4) "Spring" "Lambs are here.".

Definition new_post : QueryDict := [("title", "Summer"); ("content", "Hay is in.")].

(** * Properties *)

Unset Implicit Arguments.

(** ** Dictionaries *)

Section DictFacts.

Context {V : Type}.
Implicit Types (d : Py.dict V) (k : string) (v : V).

Lemma dict_get_set_same d k v : Py.dict_get (Py.dict_set d k v) k = Some v.
Proof.
  induction d as [|[k' v'] d IH]; simpl.
  - now rewrite String.eqb_refl.
  - destruct (String.eqb k' k) eqn:E; simpl.
    + now rewrite String.eqb_refl.
    + now rewrite E.
Qed.

Lemma dict_get_set_other d k k0 v :
  k0 <> k -> Py.dict_get (Py.dict_set d k v) k0 = Py.dict_get d k0.
Proof.
  intros Hne. induction d as [|[k' v'] d IH]; simpl.
  - destruct (String.eqb k k0) eqn:E; [apply String.eqb_eq in E; congruence|easy].
  - destruct (String.eqb k' k) eqn:E; simpl.
    + apply String.eqb_eq in E; subst k'.
      destruct (String.eqb k k0) eqn:E'; [apply String.eqb_eq in E'; congruence|easy].
    + destruct (String.eqb k' k0); [easy|apply IH].
Qed.


Lemma dict_set_keys_In d k v k0 :
  In k0 (Py.keys (Py.dict_set d k v)) -> k0 = k \/ In k0 (Py.keys d).
Proof.
  unfold Py.keys. induction d as [|[k' v'] d IH]; simpl.
  - intros [H|[]]; auto.
  - destruct (String.eqb k' k) eqn:E; simpl.
    + intros [H|H]; auto.
    + intros [H|H]; [auto|]. destruct (IH H); auto.
Qed.

Lemma dict_set_wf d k v : Py.dict_wf d -> Py.dict_wf (Py.dict_set d k v).
Proof.
  unfold Py.dict_wf, Py.keys. induction d as [|[k' v'] d IH]; simpl; intros Hwf.
  - constructor; [intros []|constructor].
  - inversion Hwf as [|? ? Hnotin Hrest]; subst.
    destruct (String.eqb k' k) eqn:E; simpl.
    + apply String.eqb_eq in E; subst k'. now constructor.
    + constructor; [|now apply IH].
      intros Hin. apply dict_set_keys_In in Hin. destruct Hin as [->|Hin].
      * now rewrite String.eqb_refl in E.
      * now apply Hnotin.
Qed.


End DictFacts.

(** ** cart_add *)

Lemma cart_add_found db session request slug p :
  get_product (products db) slug = Some p ->
  cart_add db session request slug =
    (Redirect "cart",
     Some (Py.dict_set (session_cart session) slug
             (Py.dict_get_default (session_cart session) slug 0
              + requested_quantity request))).
Proof. unfold cart_add. now intros ->. Qed.

Lemma cart_add_missing db session request slug :
  get_product (products db) slug = None ->
  cart_add db session request slug = (Http404, session).
Proof. unfold cart_add. now intros ->. Qed.

Lemma get_product_Some_iff table s :
  (exists p, get_product table s = Some p) <->
  (exists p, In p table /\ product_slug p = s).
Proof.
  unfold get_product. split.
  - intros [p Hp]. apply find_some in Hp as [Hin Heq].
    apply String.eqb_eq in Heq. eauto.
  - intros [p [Hin Hs]].
    destruct (find _ table) as [q|] eqn:E; [eauto|].
    apply (find_none _ _ E) in Hin. apply String.eqb_neq in Hin. congruence.
Qed.

(** Quantity held for [slug] after an add, in terms of the quantity held
    before. *)
Lemma cart_add_quantity_after db session request slug p :
  get_product (products db) slug = Some p ->
  Py.dict_get (session_cart (snd (cart_add db session request slug))) slug =
    Some (Py.dict_get_default (session_cart session) slug 0
          + requested_quantity request).
Proof.
  intros Hp. rewrite (cart_add_found _ _ _ _ _ Hp). simpl. apply dict_get_set_same.
Qed.








(** C6.  Adding a slug twice accumulates: after adding [m] and then [n] of
    an existing product, the cart holds the earlier quantity (0 when the
    slug was absent) plus [m + n]. *)
Theorem cart_add_twice_accumulates db session r1 r2 slug p m n
  (Hp : get_product (products db) slug = Some p)
  (Hm : requested_quantity r1 = m) (Hn : requested_quantity r2 = n) :
  let s1 := snd (cart_add db session r1 slug) in
  let s2 := snd (cart_add db s1 r2 slug) in
  Py.dict_get (session_cart s2) slug =
    Some (Py.dict_get_default (session_cart session) slug 0 + m + n).
Proof.
  cbv zeta. rewrite (cart_add_quantity_after _ _ _ _ _ Hp).
  unfold Py.dict_get_default at 1.
  rewrite (cart_add_quantity_after _ _ _ _ _ Hp). now subst.
Qed.

Lemma cart_add_twice_accumulates_witness :
  Py.dict_get
    (session_cart
       (snd (cart_add eggs_db
               (snd (cart_add eggs_db None (post [("quantity", "2")]) "eggs"))
               (post [("quantity", "3")]) "eggs")))
    "eggs" = Some 5.
Proof.
  exact (cart_add_twice_accumulates eggs_db None (post [("quantity", "2")])
           (post [("quantity", "3")]) "eggs" _ 2 3 eq_refl eq_refl eq_refl).
Defined.

(** ** Resolving the cart *)

Lemma fold_add_shift l : forall a, fold_left Z.add l a = a + fold_left Z.add l 0.
Proof.
  induction l as [|x l IH]; intros a; simpl; [lia|].
  rewrite (IH (a + x)), (IH x). lia.
Qed.

Lemma sum_cons x l : sum (x :: l) = x + sum l.
Proof. unfold sum. simpl. apply fold_add_shift. Qed.

Lemma sum_app l1 l2 : sum (l1 ++ l2) = sum l1 + sum l2.
Proof.
  induction l1 as [|x l1 IH]; simpl app.
  - unfold sum at 2. simpl. lia.
  - rewrite !sum_cons, IH. lia.
Qed.

Arguments PyDecimal.round : simpl never.
Arguments PyDecimal.mul : simpl never.
Arguments PyDecimal.add : simpl never.

Lemma resolve_fold table cart : forall items total,
  fold_left (resolve_step table) cart (items, total) =
    ((items ++ flat_map (entry_items table) cart)%list,
     fold_left PyDecimal.add
               (map item_subtotal (flat_map (entry_items table) cart)) total).
Proof.
  induction cart as [|[slug qty] cart IH]; intros items total; simpl.
  - now rewrite app_nil_r.
  - unfold entry_items at 1 3. simpl fst. simpl snd.
    destruct (first_in_stock table slug) as [product|]; rewrite IH; simpl.
    + now rewrite <- app_assoc.
    + reflexivity.
Qed.

Lemma resolve_flat_map table cart :
  resolve table cart =
    (flat_map (entry_items table) cart,
     running_total (map item_subtotal (flat_map (entry_items table) cart))).
Proof. unfold resolve, running_total. now rewrite resolve_fold. Qed.

(** Below 28 digits nothing is rounded. *)
Lemma round_exact z : Z.abs z < 10 ^ 28 -> PyDecimal.round z = z.
Proof.
  intros Hz. unfold PyDecimal.round. cbn [PyDecimal.rounding_unit].
  unfold PyDecimal.prec_bound.
  replace (Z.abs z <? 10 ^ 28 * 1) with true by (symmetry; apply Z.ltb_lt; lia).
  unfold PyDecimal.round_half_even. rewrite Z.div_1_r, Z.mod_1_r. simpl (2 * 0 <? 1).
  cbv iota. destruct z; simpl; lia.
Qed.

(** The search for the rounding unit never runs out of fuel: the unit it
    returns leaves at most 28 digits. *)
Lemma rounding_unit_enough fuel : forall a unit,
  0 < unit ->
  a < 10 ^ 28 * unit * 10 ^ Z.of_nat fuel ->
  a < 10 ^ 28 * PyDecimal.rounding_unit (S fuel) a unit.
Proof.
  induction fuel as [|fuel IH]; intros a unit Hunit Ha;
    cbn [PyDecimal.rounding_unit]; unfold PyDecimal.prec_bound.
  - destruct (a <? 10 ^ 28 * unit) eqn:E; [now apply Z.ltb_lt|].
    apply Z.ltb_ge in E. simpl Z.of_nat in Ha. rewrite Z.pow_0_r in Ha. lia.
  - destruct (a <? 10 ^ 28 * unit) eqn:E; [now apply Z.ltb_lt|].
    apply IH; [lia|].
    rewrite Nat2Z.inj_succ, Z.pow_succ_r in Ha by lia. lia.
Qed.

Lemma rounding_unit_of_magnitude a :
  0 <= a ->
  a < 10 ^ 28 * PyDecimal.rounding_unit (S (Z.to_nat (Z.log2 a))) a 1.
Proof.
  intros Ha. apply rounding_unit_enough; [lia|].
  rewrite Z2Nat.id by apply Z.log2_nonneg.
  destruct (Z.eq_dec a 0) as [->|Hne].
  - change (Z.log2 0) with 0. rewrite Z.pow_0_r. lia.
  - destruct (Z.log2_spec a) as [_ Hlt]; [lia|].
    pose proof (Z.log2_nonneg a) as Hlog.
    assert (H2 : 2 ^ Z.log2 a <= 10 ^ Z.log2 a) by (apply Z.pow_le_mono_l; lia).
    rewrite Z.pow_succ_r in Hlt by lia.
    assert (H10 : 0 < 10 ^ Z.log2 a) by (apply Z.pow_pos_nonneg; lia).
    assert (Hprec : 2 <= 10 ^ 28) by lia.
    revert Hlt H2 H10 Hprec.
    generalize (10 ^ 28) (10 ^ Z.log2 a) (2 ^ Z.log2 a). intros. nia.
Qed.

Lemma sum_abs_nonneg l : 0 <= sum (map Z.abs l).
Proof.
  induction l as [|x l IH]; [unfold sum; simpl; lia|].
  simpl map. rewrite sum_cons. lia.
Qed.

Lemma running_total_exact l : forall acc,
  Z.abs acc + sum (map Z.abs l) < 10 ^ 28 ->
  fold_left PyDecimal.add l acc = acc + sum l.
Proof.
  induction l as [|x l IH]; intros acc Hb.
  - unfold sum. simpl. lia.
  - simpl map in Hb. rewrite sum_cons in Hb. pose proof (sum_abs_nonneg l) as Hl.
    simpl fold_left. unfold PyDecimal.add at 2.
    rewrite round_exact by lia. rewrite IH by lia. rewrite sum_cons. lia.
Qed.

Lemma In_le_sum x l : In x l -> Forall (fun y => 0 <= y) l -> x <= sum l.
Proof.
  induction l as [|y l IH]; simpl; intros Hin Hall; [contradiction|].
  inversion Hall as [|? ? Hy Hl]; subst. rewrite sum_cons.
  assert (0 <= sum l).
  { clear - Hl. induction Hl as [|z l Hz Hl IH]; [unfold sum; simpl; lia|].
    rewrite sum_cons. lia. }
  destruct Hin as [->|Hin]; [lia|]. specialize (IH Hin Hl). lia.
Qed.

Lemma entry_items_subtotal table cart item :
  In item (flat_map (entry_items table) cart) ->
  item_subtotal item
  = PyDecimal.mul (product_price (item_product item)) (item_quantity item).
Proof.
  rewrite in_flat_map. intros ([slug qty] & _ & Hitem).
  unfold entry_items in Hitem. simpl in Hitem.
  destruct (first_in_stock table slug); [|contradiction].
  destruct Hitem as [<-|[]]. reflexivity.
Qed.

(** When the amounts stay within 28 digits, subtotals and total are the
    exact products and their exact sum. *)
Lemma resolve_exact table cart :
  gross_amount (fst (resolve table cart)) < 10 ^ 28 ->
  (forall item, In item (fst (resolve table cart)) ->
     item_subtotal item = product_price (item_product item) * item_quantity item)
  /\ snd (resolve table cart) = sum (map item_subtotal (fst (resolve table cart)))
  /\ snd (resolve table cart) = exact_amount (fst (resolve table cart)).
Proof.
  rewrite resolve_flat_map. simpl fst. simpl snd.
  set (items := flat_map (entry_items table) cart). intros Hgross.
  assert (Hsub : forall item, In item items ->
            item_subtotal item
            = product_price (item_product item) * item_quantity item).
  { intros item Hin. rewrite (entry_items_subtotal table cart item Hin).
    unfold PyDecimal.mul. apply round_exact.
    eapply Z.le_lt_trans; [|exact Hgross].
    unfold gross_amount. apply In_le_sum.
    - apply (in_map (fun it => Z.abs (product_price (item_product it)
                                      * item_quantity it))). exact Hin.
    - apply Forall_forall. intros y Hy. apply in_map_iff in Hy as (it & <- & _). lia. }
  assert (Hmap : map item_subtotal items
                 = map (fun it => product_price (item_product it) * item_quantity it)
                       items).
  { apply map_ext_in. exact Hsub. }
  assert (Htotal : running_total (map item_subtotal items) = exact_amount items).
  { unfold running_total, exact_amount. rewrite Hmap.
    rewrite running_total_exact; [lia|].
    rewrite map_map. unfold gross_amount in Hgross. simpl Z.abs. lia. }
  repeat split; [exact Hsub| |exact Htotal].
  rewrite Htotal. unfold exact_amount. now rewrite Hmap.
Qed.

Lemma first_in_stock_Some table s product :
  first_in_stock table s = Some product ->
  In product table /\ product_slug product = s /\ product_in_stock product = true.
Proof.
  unfold first_in_stock. intros H. apply find_some in H as [Hin Hb].
  apply andb_true_iff in Hb as [Hs Hstock]. apply String.eqb_eq in Hs. auto.
Qed.

Lemma first_in_stock_None table s :
  first_in_stock table s = None <->
  (forall product, In product table -> product_slug product = s ->
                   product_in_stock product = false).
Proof.
  unfold first_in_stock. split.
  - intros H product Hin Hs. apply (find_none _ _ H) in Hin.
    apply andb_false_iff in Hin as [Hne|Hst]; [|exact Hst].
    apply String.eqb_neq in Hne. congruence.
  - intros H. destruct (find _ table) as [q|] eqn:E; [|reflexivity].
    apply find_some in E as [Hin Hb]. apply andb_true_iff in Hb as [Hs Hstock].
    apply String.eqb_eq in Hs. rewrite (H q Hin Hs) in Hstock. discriminate.
Qed.

Lemma resolved_slugs table cart :
  map (fun i => product_slug (item_product i)) (flat_map (entry_items table) cart)
  = filter (resolvable table) (Py.keys cart).
Proof.
  unfold Py.keys, resolvable. induction cart as [|[slug qty] cart IH]; simpl; [reflexivity|].
  unfold entry_items at 1. simpl fst. simpl snd.
  destruct (first_in_stock table slug) as [product|] eqn:E; simpl.
  - apply first_in_stock_Some in E as (_ & -> & _). now rewrite IH.
  - exact IH.
Qed.

Lemma NoDup_filter {A} (f : A -> bool) l : NoDup l -> NoDup (filter f l).
Proof.
  induction 1 as [|x l Hnotin Hnd IH]; simpl; [constructor|].
  destruct (f x); [constructor|]; auto.
  intros Hin. apply filter_In in Hin. tauto.
Qed.

Lemma NoDup_map_injective {A B} (f : A -> B) l a b :
  NoDup (map f l) -> In a l -> In b l -> f a = f b -> a = b.
Proof.
  induction l as [|x l IH]; simpl; intros Hnd Ha Hb Hfab; [contradiction|].
  inversion Hnd as [|? ? Hnotin Hrest]; subst.
  destruct Ha as [->|Ha], Hb as [->|Hb]; auto.
  - exfalso. apply Hnotin. rewrite Hfab. now apply in_map.
  - exfalso. apply Hnotin. rewrite <- Hfab. now apply in_map.
Qed.

Lemma resolvable_iff table slug :
  resolvable table slug = true <->
  exists product, In product table /\ product_slug product = slug /\
                  product_in_stock product = true.
Proof.
  unfold resolvable. split.
  - destruct (first_in_stock table slug) as [product|] eqn:E; [|discriminate].
    intros _. exists product. now apply first_in_stock_Some.
  - intros (product & Hin & Hs & Hstock).
    destruct (first_in_stock table slug) eqn:E; [reflexivity|].
    rewrite first_in_stock_None in E. rewrite (E product Hin Hs) in Hstock.
    discriminate.
Qed.

Lemma resolve_omits_unavailable table cart slug :
  (forall product, In product table -> product_slug product = slug ->
                   product_in_stock product = false) ->
  forall item, In item (fst (resolve table cart)) ->
               product_slug (item_product item) <> slug.
Proof.
  intros Hout item Hin Hslug. rewrite resolve_flat_map in Hin. simpl fst in Hin.
  apply (in_map (fun i => product_slug (item_product i))) in Hin.
  rewrite resolved_slugs, Hslug in Hin.
  apply filter_In in Hin as [_ Hs]. apply resolvable_iff in Hs as (product & Hp & Hps & Hstock).
  rewrite (Hout product Hp Hps) in Hstock. discriminate.
Qed.

Lemma cart_view_not_posted clean db session request :
  is_POST request = false ->
  cart_view clean db session request =
    (CartRendered
       (mkCartPage (fst (resolve (products db) (session_cart session)))
                   (snd (resolve (products db) (session_cart session)))
                   false
                   (form_errors (bind_form clean (POST_data request)))),
     db, session).
Proof.
  intros Hget. unfold cart_view. rewrite Hget.
  now destruct (resolve (products db) (session_cart session)).
Qed.

(** C4 (as amended).  Resolving a cart against the product table yields one
    entry [{product, quantity, subtotal}] for exactly the slugs of the cart
    that name an in-stock product, in cart order; slugs naming no product or
    an out-of-stock one yield nothing; displaying the cart leaves the
    session's cart mapping as it was.  The subtotal is [price * quantity]
    and the total the running sum of the subtotals, both in [Decimal]
    arithmetic: they are the exact product and the exact sum whenever the
    amounts involved stay within 28 significant digits. *)
Theorem resolve_keeps_in_stock_entries (table : list Product) (cart : Py.dict Z) :
  let items := fst (resolve table cart) in
  let total := snd (resolve table cart) in
  (forall item, In item items <->
     exists slug qty product,
       In (slug, qty) cart /\ first_in_stock table slug = Some product /\
       item = mkItem product qty (PyDecimal.mul (product_price product) qty))
  /\ (forall slug product, first_in_stock table slug = Some product ->
        In product table /\ product_slug product = slug /\
        product_in_stock product = true)
  /\ (forall slug, resolvable table slug = true <->
        exists product, In product table /\ product_slug product = slug /\
                        product_in_stock product = true)
  /\ map (fun i => product_slug (item_product i)) items
       = filter (resolvable table) (Py.keys cart)
  /\ (forall slug,
        (forall product, In product table -> product_slug product = slug ->
                         product_in_stock product = false) ->
        forall item, In item items -> product_slug (item_product item) <> slug)
  /\ total = running_total (map item_subtotal items)
  /\ (gross_amount items < 10 ^ 28 ->
      (forall item, In item items ->
         item_subtotal item = product_price (item_product item) * item_quantity item)
      /\ total = sum (map item_subtotal items))
  /\ (forall clean db session request,
        products db = table -> session_cart session = cart ->
        is_POST request = false ->
        exists page,
          cart_view clean db session request = (CartRendered page, db, session)
          /\ page_items page = items /\ page_total page = total).
Proof.
  cbv zeta. repeat apply conj.
  - intros item. rewrite resolve_flat_map. simpl fst. rewrite in_flat_map. split.
    + intros ([slug qty] & Hin & Hitem). unfold entry_items in Hitem. simpl in Hitem.
      destruct (first_in_stock table slug) as [product|] eqn:E; [|contradiction].
      destruct Hitem as [<-|[]]. exists slug, qty, product. auto.
    + intros (slug & qty & product & Hin & Hlook & ->).
      exists (slug, qty). split; [exact Hin|].
      unfold entry_items. simpl. rewrite Hlook. now left.
  - intros slug product. apply first_in_stock_Some.
  - apply resolvable_iff.
  - rewrite resolve_flat_map. apply resolved_slugs.
  - apply resolve_omits_unavailable.
  - now rewrite resolve_flat_map.
  - intros Hgross. destruct (resolve_exact table cart Hgross) as (Hsub & Htotal & _).
    split; assumption.
  - intros clean db session request <- <- Hget.
    rewrite (cart_view_not_posted _ _ _ _ Hget).
    eexists. split; [reflexivity|]. split; reflexivity.
Qed.

Lemma resolve_keeps_in_stock_entries_witness :
  resolve [fresh_eggs; goat_milk] [("fresh-eggs", 5); ("goat-milk", 1); ("gone", 2)]
    = ([mkItem fresh_eggs 5 2500], 2500)
  /\ snd (resolve [fresh_eggs; goat_milk]
            [("fresh-eggs", 5); ("goat-milk", 1); ("gone", 2)])
     = sum (map item_subtotal
              (fst (resolve [fresh_eggs; goat_milk]
                      [("fresh-eggs", 5); ("goat-milk", 1); ("gone", 2)]))).
Proof.
  split; [reflexivity|].
  apply (proj1 (proj2 (proj2 (proj2 (proj2 (proj2 (proj2
    (resolve_keeps_in_stock_entries [fresh_eggs; goat_milk]
       [("fresh-eggs", 5); ("goat-milk", 1); ("gone", 2)])))))))).
  reflexivity.
Defined.

(** C4, counterexample.  A quantity of [10^28 + 1], which [cart_add]
    accepts, gives a subtotal that is not [price * quantity]: the product
    has 31 digits and is rounded to 28.  And with a subtotal of that size
    in the cart, a later subtotal of 250 hundredths is lost from the total,
    which is then not the sum of the subtotals. *)
Lemma resolve_rounds_large_amounts :
  snd (cart_add sample_db None (post huge_order) "fresh-eggs")
    = Some [("fresh-eggs", huge_quantity)]
  /\ map item_subtotal
         (fst (resolve (products sample_db) [("fresh-eggs", huge_quantity)]))
     <> [product_price fresh_eggs * huge_quantity]
  /\ snd (resolve (products two_products_db) [("fresh-eggs", 10 ^ 28); ("seedlings", 1)])
     <> sum (map item_subtotal
               (fst (resolve (products two_products_db)
                       [("fresh-eggs", 10 ^ 28); ("seedlings", 1)]))).
Proof.
  split; [reflexivity|]. split; vm_compute; discriminate.
Qed.

(** C10.  [cart_add] changes the cart only when the slug names a stored
    product: an unknown slug is answered with a 404 and the session is left
    as it was.  The lookup does not read [in_stock], so an out-of-stock
    product is added like any other; resolving the cart then leaves it
    out. *)
Theorem cart_add_checks_existence_only db session request slug :
  (get_product (products db) slug = None ->
     cart_add db session request slug = (Http404, session))
  /\ (snd (cart_add db session request slug) <> session ->
        exists p, In p (products db) /\ product_slug p = slug)
  /\ (forall p, In p (products db) -> product_slug p = slug ->
        fst (cart_add db session request slug) = Redirect "cart"
        /\ Py.dict_get (session_cart (snd (cart_add db session request slug))) slug
             = Some (Py.dict_get_default (session_cart session) slug 0
                     + requested_quantity request)
        /\ (product_in_stock p = false ->
            NoDup (map product_slug (products db)) ->
            forall item,
              In item (fst (resolve (products db)
                              (session_cart (snd (cart_add db session request slug))))) ->
              product_slug (item_product item) <> slug)).
Proof.
  repeat apply conj.
  - apply cart_add_missing.
  - intros Hchanged. apply get_product_Some_iff.
    destruct (get_product (products db) slug) as [p|] eqn:E; [eauto|].
    rewrite (cart_add_missing _ _ _ _ E) in Hchanged. now elim Hchanged.
  - intros p Hin Hs.
    destruct (proj2 (get_product_Some_iff (products db) slug)) as [q Hq]; [eauto|].
    repeat apply conj.
    + now rewrite (cart_add_found _ _ _ _ _ Hq).
    + apply (cart_add_quantity_after _ _ _ _ _ Hq).
    + intros Hout Hnd. apply resolve_omits_unavailable.
      intros product Hin' Hs'.
      assert (product = p) as ->; [|exact Hout].
      apply (NoDup_map_injective product_slug (products db)); congruence.
Qed.

Lemma cart_add_checks_existence_only_witness :
  cart_add sample_db None (post []) "no-such-product" = (Http404, None)
  /\ cart_add sample_db None (post []) "goat-milk"
       = (Redirect "cart", Some [("goat-milk", 1)])
  /\ forall item,
       In item (fst (resolve (products sample_db) [("goat-milk", 1)])) ->
       product_slug (item_product item) <> "goat-milk".
Proof.
  split.
  - exact (proj1 (cart_add_checks_existence_only sample_db None (post [])
                    "no-such-product") eq_refl).
  - split; [reflexivity|].
    refine (proj2 (proj2 (proj2 (proj2
      (cart_add_checks_existence_only sample_db None (post []) "goat-milk"))
      goat_milk _ eq_refl)) eq_refl _).
    + right. left. reflexivity.
    + repeat constructor; simpl; intuition discriminate.
Defined.

(** ** Checkout *)

Lemma create_orders_all_storable f items : forall db,
  Forall storable items ->
  create_orders db items (of_name f) (of_email f) (of_notes f) =
    (with_orders db (orders db ++ map (order_of_item f) items), true).
Proof.
  induction items as [|item items IH]; intros db Hall; simpl.
  - rewrite app_nil_r. now destruct db.
  - inversion Hall as [|? ? Hok Hrest]; subst.
    unfold Order_objects_create. simpl order_quantity. rewrite Hok.
    rewrite (IH _ Hrest). unfold with_orders. simpl.
    rewrite <- app_assoc. reflexivity.
Qed.

Lemma create_orders_interrupted f good bad rest : forall db,
  Forall storable good ->
  PositiveIntegerField_ok (item_quantity bad) = false ->
  create_orders db (good ++ bad :: rest) (of_name f) (of_email f) (of_notes f) =
    (with_orders db (orders db ++ map (order_of_item f) good), false).
Proof.
  induction good as [|item good IH]; intros db Hall Hbad; simpl.
  - unfold Order_objects_create. simpl order_quantity. rewrite Hbad.
    rewrite app_nil_r. now destruct db.
  - inversion Hall as [|? ? Hok Hrest]; subst.
    unfold Order_objects_create at 1. simpl order_quantity. rewrite Hok.
    rewrite (IH _ Hrest Hbad). unfold with_orders. simpl.
    rewrite <- app_assoc. reflexivity.
Qed.

Lemma resolved_slugs_NoDup table cart :
  Py.dict_wf cart ->
  NoDup (map (fun i => product_slug (item_product i)) (fst (resolve table cart))).
Proof.
  intros Hwf. rewrite resolve_flat_map. simpl fst. rewrite resolved_slugs.
  now apply NoDup_filter.
Qed.

(** C3, on the code.  What a POST to the cart page with a valid order form
    does: when the store accepts every resolved item, one pending order is
    written per item and the session cart is replaced by the empty mapping;
    when it refuses the quantity of some item, the orders of the items
    before it are already written, the view ends in an error, and the cart
    stays in the session.  With a refused item that is not the first, the
    checkout is neither carried out nor left undone. *)
Theorem cart_view_checkout_outcomes clean db session request f
  (Hpost : is_POST request = true)
  (Hvalid : bind_form clean (POST_data request) = Valid f) :
  let items := fst (resolve (products db) (session_cart session)) in
  (items <> [] -> Forall storable items ->
     cart_view clean db session request =
       (CartRendered (mkCartPage [] 0 true []),
        with_orders db (orders db ++ map (order_of_item f) items),
        Some []))
  /\ (forall good bad rest,
        items = (good ++ bad :: rest)%list ->
        Forall storable good ->
        PositiveIntegerField_ok (item_quantity bad) = false ->
        cart_view clean db session request =
          (CartError,
           with_orders db (orders db ++ map (order_of_item f) good),
           session)
        /\ (List.length (map (order_of_item f) good) < List.length items)%nat).
Proof.
  cbv zeta. unfold cart_view. rewrite Hpost, Hvalid.
  destruct (resolve (products db) (session_cart session)) as [items total].
  simpl fst. split.
  - intros Hitems Hall. destruct items as [|item items]; [congruence|].
    now rewrite (create_orders_all_storable f _ db Hall).
  - intros good bad rest -> Hgood Hbad.
    rewrite (create_orders_interrupted f good bad rest db Hgood Hbad).
    split; [destruct good; reflexivity|].
    rewrite length_map, length_app. simpl. lia.
Qed.

Lemma cart_view_checkout_outcomes_witness :
  let s1 := snd (cart_add two_products_db None (post [("quantity", "1")]) "fresh-eggs") in
  let s2 := snd (cart_add two_products_db s1 (post [("quantity", "-1")]) "seedlings") in
  s2 = Some [("fresh-eggs", 1); ("seedlings", -1)]
  /\ cart_view Reference.OrderForm_clean two_products_db s2 (post jane_order)
     = (CartError,
        with_orders two_products_db
          [mkOrder (Some 1) "Jane" "jane@x.com" 1 "" OrderPending],
        s2).
Proof.
  cbv zeta. split; [reflexivity|].
  refine (proj1 (proj2
    (cart_view_checkout_outcomes Reference.OrderForm_clean two_products_db
       (Some [("fresh-eggs", 1); ("seedlings", -1)]) (post jane_order)
       (mkOrderFields "Jane" "jane@x.com" 1 "") eq_refl eq_refl)
    [mkItem fresh_eggs 1 500]
    (mkItem (mkProduct (Some 3) "Seedlings" "seedlings" 250 true) (-1) (-250))
    [] eq_refl _ eq_refl)).
  repeat constructor.
Defined.

(** When the store refuses a quantity part-way through the loop, the
    exception leaves the view with the earlier rows already written and the
    cart still in the session. *)
Example cart_view_interrupted :
  cart_view Reference.OrderForm_clean two_products_db
            (Some [("fresh-eggs", 1); ("seedlings", -1)]) (post jane_order)
  = (CartError,
     with_orders two_products_db [mkOrder (Some 1) "Jane" "jane@x.com" 1 "" OrderPending],
     Some [("fresh-eggs", 1); ("seedlings", -1)]).
Proof. reflexivity. Qed.

(** ** Availability guard *)

Lemma tickets_sold_append db event b :
  counts_as_sold (booking_status b) = false ->
  tickets_sold (with_bookings db (bookings db ++ [b])) event = tickets_sold db event.
Proof.
  intros Hb. unfold tickets_sold, eventbookings_sold. simpl bookings.
  rewrite filter_app. simpl. rewrite Hb, andb_false_r. now rewrite app_nil_r.
Qed.

(** C2.  A valid booking posted from the page of an active event is checked
    against [available = max(capacity - tickets_sold, 0)], where
    [tickets_sold] adds up the tickets of that event's confirmed and paid
    bookings only.  A request for more than [available] is answered with the
    error ["Only N tickets are available."] on [tickets], and the tables are
    left as they were; any other request is saved, as a pending booking for
    that event. *)
Theorem event_detail_availability_guard clean db request slug event f
  (Hevent : get_active_event (events db) slug = Some event)
  (Hpost : is_POST request = true)
  (Hvalid : bind_form clean (POST_data request) = Valid f)
  (Hrange : PositiveIntegerField_ok (bf_tickets f) = true) :
  let available := available_tickets db event in
  let result := event_detail clean db request slug in
  available =
    Z.max (event_capacity event
           - sum (map booking_tickets
                    (filter (fun b =>
                               same_key (booking_event b) (event_pk event)
                               && match booking_status b with
                                  | Confirmed | Paid => true
                                  | Pending | Rejected | Cancelled => false
                                  end)%bool
                            (bookings db)))) 0
  /\ (bf_tickets f > available ->
        result = (Render "event_detail.html" false
                         [("tickets",
                           "Only " ++ Py.str_of_Z available ++ " tickets are available.")],
                  db)
        /\ bookings (snd result) = bookings db
        /\ tickets_sold (snd result) event = tickets_sold db event)
  /\ (bf_tickets f <= available ->
        result = (Render "event_detail.html" true [],
                  with_bookings db
                    (bookings db ++
                     [mkBooking (bf_name f) (bf_email f) (bf_date f) (bf_tickets f)
                                (event_pk event) (bf_notes f) Pending]))
        /\ tickets_sold (snd result) event = tickets_sold db event).
Proof.
  cbv zeta. unfold event_detail. rewrite Hevent, Hpost, Hvalid.
  simpl booking_tickets. repeat apply conj.
  - reflexivity.
  - intros Hgt. apply Z.gtb_gt in Hgt. rewrite Hgt. auto.
  - intros Hle. destruct (bf_tickets f >? available_tickets db event) eqn:E.
    + apply Z.gtb_gt in E. lia.
    + unfold Booking_save, booking_of_form. simpl booking_tickets. rewrite Hrange.
      split; [reflexivity|]. simpl snd. now apply tickets_sold_append.
Qed.

Lemma event_detail_availability_guard_witness :
  event_detail Reference.BookingForm_clean sample_db (post bob_booking) "harvest-fest"
  = (Render "event_detail.html" false [("tickets", "Only 2 tickets are available.")],
     sample_db).
Proof.
  refine (proj1 (proj1 (proj2
    (event_detail_availability_guard Reference.BookingForm_clean sample_db
       (post bob_booking) "harvest-fest" harvest_fest
       (mkBookingFields "Bob" "bob@x.com" "2025-10-02" 3 "")
       eq_refl eq_refl eq_refl eq_refl)) _)).
  reflexivity.
Defined.

(** C1, on the code.  The general booking form saves a valid booking that
    carries an [event_slug] without consulting the event's availability:
    whatever the number of tickets left, the row is written and success is
    reported. *)
Theorem booking_saves_without_guard clean db request slug event f
  (Hpost : is_POST request = true)
  (Hvalid : bind_form clean (POST_data request) = Valid f)
  (Hslug : QueryDict_get (POST_data request) "event_slug" = Some slug)
  (Hnonempty : slug <> "")
  (Hevent : first_event (events db) slug = Some event)
  (Hrange : PositiveIntegerField_ok (bf_tickets f) = true) :
  booking clean db request =
    (Render "booking.html" true [],
     with_bookings db (bookings db ++ [booking_of_form f (event_pk event)])).
Proof.
  unfold booking. rewrite Hpost, Hvalid, Hslug.
  destruct slug as [|c s]; [congruence|]. rewrite Hevent.
  unfold Booking_save, booking_of_form. simpl booking_tickets. now rewrite Hrange.
Qed.

Lemma booking_saves_without_guard_witness :
  available_tickets sample_db harvest_fest = 2
  /\ booking Reference.BookingForm_clean sample_db
       (post (bob_booking ++ [("event_slug", "harvest-fest")])%list)
     = (Render "booking.html" true [],
        with_bookings sample_db
          (bookings sample_db ++
           [mkBooking "Bob" "bob@x.com" "2025-10-02" 3 (Some 1) "" Pending])%list).
Proof.
  split; [reflexivity|].
  refine (booking_saves_without_guard Reference.BookingForm_clean sample_db
            (post (bob_booking ++ [("event_slug", "harvest-fest")])%list)
            "harvest-fest" harvest_fest
            (mkBookingFields "Bob" "bob@x.com" "2025-10-02" 3 "")
            eq_refl eq_refl eq_refl _ eq_refl eq_refl).
  discriminate.
Defined.

(** ** Newsletter signup *)

Lemma newsletter_first_signup clean db request email :
  is_POST request = true ->
  POST_data request <> [] ->
  clean (POST_data request) = inr email ->
  existsb (fun s => String.eqb (subscriber_email s) email) (subscribers db) = false ->
  newsletter_subscribe clean db request =
    (Render "newsletter_signup.html" true [],
     with_subscribers db (subscribers db ++ [mkSubscriber email])).
Proof.
  intros Hpost Hbound Hclean Hnew. unfold newsletter_subscribe, bind_form.
  destruct (POST_data request) as [|x data] eqn:E; [congruence|].
  unfold NewsletterForm_clean. rewrite Hclean, Hnew, Hpost.
  unfold get_or_create. now rewrite Hnew.
Qed.

(** C9, on the code.  When the posted email is already stored, the form's
    uniqueness validation fails before [get_or_create] is reached: the page
    is rendered with [success = False] and an error on [email], and the
    table is left as it was. *)
Theorem newsletter_duplicate_rejected clean db request email
  (Hpost : is_POST request = true)
  (Hbound : POST_data request <> [])
  (Hclean : clean (POST_data request) = inr email)
  (Hstored : In (mkSubscriber email) (subscribers db)) :
  newsletter_subscribe clean db request =
    (Render "newsletter_signup.html" false
            [("email", "Newsletter subscriber with this Email already exists.")],
     db).
Proof.
  unfold newsletter_subscribe, bind_form.
  destruct (POST_data request) as [|x data] eqn:E; [congruence|].
  unfold NewsletterForm_clean. rewrite Hclean.
  assert (Hex : existsb (fun s => String.eqb (subscriber_email s) email)
                        (subscribers db) = true).
  { apply existsb_exists. exists (mkSubscriber email). split; [exact Hstored|].
    apply String.eqb_refl. }
  rewrite Hex, Hpost. reflexivity.
Qed.

Lemma newsletter_duplicate_rejected_witness :
  let first := newsletter_subscribe Reference.clean_email sample_db signup in
  let second := newsletter_subscribe Reference.clean_email (snd first) signup in
  fst first = Render "newsletter_signup.html" true []
  /\ second = (Render "newsletter_signup.html" false
                 [("email", "Newsletter subscriber with this Email already exists.")],
               snd first)
  /\ subscribers (snd second) = [mkSubscriber "a@example.com"].
Proof.
  cbv zeta. split; [reflexivity|]. split; [|reflexivity].
  refine (newsletter_duplicate_rejected Reference.clean_email _ signup
            "a@example.com" eq_refl _ eq_refl _).
  - discriminate.
  - left. reflexivity.
Defined.

(** ** Slug assignment *)

Lemma string_length_app (s t : string) :
  String.length (s ++ t) = (String.length s + String.length t)%nat.
Proof. induction s as [|c s IH]; simpl; [reflexivity|now rewrite IH]. Qed.

Lemma string_app_inv_head (s a b : string) : s ++ a = s ++ b -> a = b.
Proof. induction s as [|c s IH]; simpl; intros H; [exact H|]. inversion H. auto. Qed.

Lemma str_of_nat_injective i j : Py.str_of_nat i = Py.str_of_nat j -> i = j.
Proof.
  unfold Py.str_of_nat. intros H. apply Unsigned.to_uint_inj.
  apply (f_equal NilEmpty.uint_of_string) in H.
  rewrite !NilEmpty.usu in H. now inversion H.
Qed.

Lemma candidate_injective slug_base i j :
  candidate slug_base i = candidate slug_base j -> i = j.
Proof.
  destruct i as [|i], j as [|j]; simpl; unfold suffixed; intros H.
  - reflexivity.
  - apply (f_equal String.length) in H. rewrite string_length_app in H.
    simpl in H. lia.
  - apply (f_equal String.length) in H. rewrite string_length_app in H.
    simpl in H. lia.
  - apply string_app_inv_head in H. simpl in H. inversion H as [H'].
    now apply str_of_nat_injective.
Qed.

Lemma slug_loop_finds taken slug_base : forall fuel k j,
  (k <= j)%nat ->
  (forall i, (k <= i < j)%nat -> taken (candidate slug_base i) = true) ->
  taken (candidate slug_base j) = false ->
  (j - k < fuel)%nat ->
  slug_loop fuel taken slug_base (candidate slug_base k) (S k)
    = Some (candidate slug_base j).
Proof.
  induction fuel as [|fuel IH]; intros k j Hkj Hbelow Hfree Hfuel; [lia|].
  simpl. destruct (Nat.eq_dec k j) as [->|Hne].
  - now rewrite Hfree.
  - rewrite (Hbelow k) by lia.
    apply (IH (S k) j); [lia| |exact Hfree|lia].
    intros i Hi. apply Hbelow. lia.
Qed.

(** Least index at which a boolean test fails, up to a bound. *)
Lemma least_false (P : nat -> bool) (n : nat) :
  (exists j, (j <= n)%nat /\ P j = false /\ forall i, (i < j)%nat -> P i = true)
  \/ (forall j, (j <= n)%nat -> P j = true).
Proof.
  induction n as [|n [(j & Hj & Hf & Hlt)|Hall]].
  - destruct (P 0%nat) eqn:E.
    + right. intros j Hj. now replace j with 0%nat by lia.
    + left. exists 0%nat. repeat split; [lia|exact E|]. intros i Hi. lia.
  - left. exists j. repeat split; [lia|exact Hf|exact Hlt].
  - destruct (P (S n)) eqn:E.
    + right. intros j Hj. destruct (Nat.eq_dec j (S n)) as [->|Hne]; [exact E|].
      apply Hall. lia.
    + left. exists (S n). repeat split; [lia|exact E|]. intros i Hi. apply Hall. lia.
Qed.

Lemma NoDup_map_of_injective {A B} (f : A -> B) l :
  (forall a b, f a = f b -> a = b) -> NoDup l -> NoDup (map f l).
Proof.
  intros Hinj. induction 1 as [|x l Hnotin Hnd IH]; simpl; constructor; [|exact IH].
  intros Hin. apply in_map_iff in Hin as (y & Hfy & Hy).
  apply Hinj in Hfy. now subst.
Qed.

Section SlugFacts.

Context {A : Type} `{SlugModel A}.
Variable slugify : string -> string.

Lemma excluded_true_iff ipk rpk :
  excluded ipk rpk = true <-> exists key, ipk = Some key /\ rpk = Some key.
Proof.
  unfold excluded, same_key. destruct rpk as [b|], ipk as [a|]; split;
    try discriminate; try (intros (key & H1 & H2); discriminate).
  - intros E. apply Z.eqb_eq in E. subst. eauto.
  - intros (key & H1 & H2). inversion H1; inversion H2; subst. apply Z.eqb_refl.
Qed.

Lemma slug_taken_iff table instance s :
  slug_taken table (pk instance) s = true <-> held_by_other table instance s.
Proof.
  unfold slug_taken, held_by_other. rewrite existsb_exists. split.
  - intros (r & Hin & Hb). apply andb_true_iff in Hb as [Hs Hex].
    apply String.eqb_eq in Hs. apply negb_true_iff in Hex.
    exists r. repeat split; [exact Hin|exact Hs|].
    rewrite <- excluded_true_iff. congruence.
  - intros (r & Hin & Hs & Hex). exists r. split; [exact Hin|].
    apply andb_true_iff. split; [now apply String.eqb_eq|].
    apply negb_true_iff. rewrite <- excluded_true_iff in Hex.
    now destruct (excluded (pk instance) (pk r)).
Qed.

Lemma slug_taken_in_table table ipk s :
  slug_taken table ipk s = true -> In s (map slug table).
Proof.
  unfold slug_taken. rewrite existsb_exists. intros (r & Hin & Hb).
  apply andb_true_iff in Hb as [Hs _]. apply String.eqb_eq in Hs. subst.
  now apply in_map.
Qed.

(** Among the first [length table + 1] candidates one is free. *)
Lemma free_candidate table ipk slug_base :
  exists j, (j <= List.length table)%nat
            /\ slug_taken table ipk (candidate slug_base j) = false
            /\ forall i, (i < j)%nat ->
                         slug_taken table ipk (candidate slug_base i) = true.
Proof.
  destruct (least_false (fun j => slug_taken table ipk (candidate slug_base j))
                        (List.length table)) as [Hfound|Hall]; [exact Hfound|].
  exfalso.
  assert (Hincl : incl (map (candidate slug_base) (seq 0 (S (List.length table))))
                       (map slug table)).
  { intros s Hs. apply in_map_iff in Hs as (j & <- & Hj). apply in_seq in Hj.
    apply (slug_taken_in_table table ipk). apply Hall. lia. }
  apply NoDup_incl_length in Hincl.
  - rewrite !length_map, length_seq in Hincl. lia.
  - apply NoDup_map_of_injective; [apply candidate_injective|apply seq_NoDup].
Qed.

(** [_unique_slugify] always returns, with the first free candidate. *)
Lemma unique_slugify_first_free table instance value :
  exists k, (k <= List.length table)%nat
    /\ _unique_slugify slugify table instance value
         = Some (set_slug instance (candidate (slugify value) k))
    /\ ~ held_by_other table instance (candidate (slugify value) k)
    /\ forall i, (i < k)%nat ->
                 held_by_other table instance (candidate (slugify value) i).
Proof.
  destruct (free_candidate table (pk instance) (slugify value))
    as (k & Hk & Hfree & Hbelow).
  exists k. repeat split.
  - exact Hk.
  - unfold _unique_slugify.
    change (slugify value) with (candidate (slugify value) 0) at 2.
    rewrite (slug_loop_finds _ _ _ 0%nat k); [reflexivity|lia| |exact Hfree|lia].
    intros i Hi. apply Hbelow. lia.
  - rewrite <- slug_taken_iff. congruence.
  - intros i Hi. apply slug_taken_iff. now apply Hbelow.
Qed.

Lemma receiver_assigns_unique_slug (handler : list A -> A -> option A)
  (source : A -> string) :
  (forall table instance,
      handler table instance =
        if blank (slug instance)
        then _unique_slugify slugify table instance (source instance)
        else Some instance) ->
  assigns_unique_slug slugify handler source.
Proof.
  intros Hdef table instance. rewrite Hdef. repeat apply conj.
  - intros Hset. destruct (slug instance); [congruence|reflexivity].
  - intros ->. simpl. apply unique_slugify_first_free.
  - intros -> Hown. simpl.
    destruct (unique_slugify_first_free table instance (source instance))
      as (k & _ & -> & _ & Hbelow).
    destruct k as [|k]; [reflexivity|].
    destruct (Hbelow 0%nat) as (r & Hin & Hs & Hother); [lia|].
    elim Hother. now apply Hown.
Qed.

End SlugFacts.

(** C7.  The [pre_save] receivers of [Event], [Service] and [Product]:
    an instance whose slug is set is left as it is; an instance whose slug
    is blank receives the slugified title or name when no other stored row
    of the same table holds it, and otherwise that slug followed by [-k]
    for the least [k >= 1] not held by another row.  Rows carrying the
    instance's own primary key are not counted as holders, so an instance
    whose base slug is held only by its own row gets the base slug back. *)
Theorem slug_receivers_assign_first_free (slugify : string -> string) :
  assigns_unique_slug slugify (set_event_slug slugify) event_title
  /\ assigns_unique_slug slugify (set_service_slug slugify) service_name
  /\ assigns_unique_slug slugify (set_product_slug slugify) product_name
  /\ (forall slug_base k, candidate slug_base (S k) = slug_base ++ "-" ++ Py.str_of_nat (S k))
  /\ (forall slug_base, candidate slug_base 0 = slug_base)
  /\ (forall (p : Product) s, product_slug (set_slug p s) = s /\ product_pk (set_slug p s) = product_pk p)
  /\ (forall (x : Service) s, service_slug (set_slug x s) = s /\ service_pk (set_slug x s) = service_pk x)
  /\ (forall (e : Event) s, event_slug (set_slug e s) = s /\ event_pk (set_slug e s) = event_pk e).
Proof.
  repeat apply conj;
    try (apply (receiver_assigns_unique_slug slugify); intros table instance;
         reflexivity);
    intros; try split; reflexivity.
Qed.

Lemma slug_receivers_assign_first_free_witness :
  set_product_slug Reference.slugify [fresh_eggs]
                   (mkProduct (Some 1) "Fresh Eggs" "" 500 true)
  = Some (mkProduct (Some 1) "Fresh Eggs" "fresh-eggs" 500 true).
Proof.
  refine (proj2 (proj2
    (proj1 (proj2 (proj2 (slug_receivers_assign_first_free Reference.slugify)))
       [fresh_eggs] (mkProduct (Some 1) "Fresh Eggs" "" 500 true))) eq_refl _).
  intros r [<-|[]] _. exists 1. split; reflexivity.
Defined.

Example colliding_names_get_suffixes :
  let table1 := [fresh_eggs] in
  let second := mkProduct None "Fresh eggs!" "" 450 true in
  let table2 := [fresh_eggs; mkProduct (Some 2) "Fresh eggs!" "fresh-eggs-1" 450 true] in
  let third := mkProduct None "FRESH EGGS" "" 400 true in
  option_map product_slug (set_product_slug Reference.slugify table1 second)
    = Some "fresh-eggs-1"
  /\ option_map product_slug (set_product_slug Reference.slugify table2 third)
    = Some "fresh-eggs-2".
Proof. split; reflexivity. Qed.

(** C8, on the code.  When the name of a product slugifies to the empty
    string and no other stored product has an empty slug, the receiver
    assigns the empty string: the product is saved with an empty slug. *)
Theorem set_product_slug_empty_base (slugify : string -> string)
  (table : list Product) (instance : Product)
  (Hblank : product_slug instance = "")
  (Hbase : slugify (product_name instance) = "")
  (Hfree : forall r, In r table -> product_slug r <> "") :
  exists saved,
    set_product_slug slugify table instance = Some saved
    /\ product_slug saved = ""
    /\ product_name saved = product_name instance.
Proof.
  destruct (receiver_assigns_unique_slug slugify (set_product_slug slugify)
              product_name (fun _ _ => eq_refl) table instance) as (_ & _ & Hown).
  exists (set_slug instance ""). rewrite <- Hbase at 1. split; [|split; reflexivity].
  apply Hown; [exact Hblank|]. intros r Hin Hs.
  elim (Hfree r Hin). rewrite Hbase in Hs. exact Hs.
Qed.

Lemma set_product_slug_empty_base_witness :
  Reference.slugify "!!!" = ""
  /\ exists saved,
       set_product_slug Reference.slugify [fresh_eggs] (mkProduct None "!!!" "" 100 true)
         = Some saved
       /\ product_slug saved = ""
       /\ product_name saved = "!!!".
Proof.
  split; [reflexivity|].
  apply (set_product_slug_empty_base Reference.slugify [fresh_eggs]
           (mkProduct None "!!!" "" 100 true) eq_refl eq_refl).
  intros r [<-|[]]; discriminate.
Defined.

(** * Further properties of the views and models *)

(** ** Availability *)

Lemma sum_nonneg l : Forall (fun z => 0 <= z) l -> 0 <= sum l.
Proof.
  induction 1 as [|x l Hx Hl IH]; [unfold sum; simpl; lia|].
  rewrite sum_cons. lia.
Qed.

Lemma tickets_sold_nonneg db e :
  Forall (fun b => 0 <= booking_tickets b) (bookings db) -> 0 <= tickets_sold db e.
Proof.
  intros Hall. unfold tickets_sold, eventbookings_sold. apply sum_nonneg.
  apply Forall_map. apply Forall_forall. intros b Hb.
  apply filter_In in Hb as [Hb _]. rewrite Forall_forall in Hall. now apply Hall.
Qed.

(** X1.  With a non-negative capacity and non-negative stored ticket
    counts, [available_tickets] lies between 0 and the capacity; it is the
    capacity when the event has no confirmed or paid booking, and 0 (never
    negative) once the tickets sold reach or exceed the capacity. *)
Theorem available_tickets_bounds db e
  (Hcap : 0 <= event_capacity e)
  (Htickets : Forall (fun b => 0 <= booking_tickets b) (bookings db)) :
  0 <= available_tickets db e <= event_capacity e
  /\ (eventbookings_sold db e = [] -> available_tickets db e = event_capacity e)
  /\ (event_capacity e <= tickets_sold db e -> available_tickets db e = 0)
  /\ (tickets_sold db e <= event_capacity e ->
      available_tickets db e + tickets_sold db e = event_capacity e).
Proof.
  pose proof (tickets_sold_nonneg db e Htickets) as Hsold.
  unfold available_tickets. repeat apply conj; try lia.
  intros Hnone. unfold tickets_sold. rewrite Hnone. unfold sum. simpl. lia.
Qed.

Lemma available_tickets_bounds_witness :
  0 <= available_tickets sample_db harvest_fest <= 10
  /\ available_tickets sample_db harvest_fest + 8 = 10.
Proof.
  pose proof (available_tickets_bounds sample_db harvest_fest) as H.
  destruct H as (Hb & _ & _ & Hsum).
  - simpl. lia.
  - repeat constructor. simpl. lia.
  - split; [exact Hb|]. apply Hsum. vm_compute. discriminate.
Defined.

Lemma tickets_sold_ext db1 db2 e :
  bookings db1 = bookings db2 -> tickets_sold db1 e = tickets_sold db2 e.
Proof. unfold tickets_sold, eventbookings_sold. now intros ->. Qed.

Lemma appends_pending_booking_refl db : appends_pending_booking db db.
Proof. unfold appends_pending_booking. auto 6. Qed.

Lemma Booking_save_appends db b db' :
  booking_status b = Pending -> Booking_save db b = Some db' ->
  appends_pending_booking db db'.
Proof.
  unfold Booking_save. intros Hst. destruct (PositiveIntegerField_ok _); [|discriminate].
  intros H. inversion H; subst. unfold appends_pending_booking. simpl.
  repeat split. right. eauto.
Qed.

Lemma event_detail_appends clean db request slug :
  appends_pending_booking db (snd (event_detail clean db request slug)).
Proof.
  unfold event_detail.
  destruct (get_active_event (events db) slug) as [event|];
    [|apply appends_pending_booking_refl].
  destruct (is_POST request); [|apply appends_pending_booking_refl].
  destruct (bind_form clean (POST_data request)) as [|errs|f];
    try apply appends_pending_booking_refl.
  destruct (_ >? _); [apply appends_pending_booking_refl|].
  destruct (Booking_save db _) as [db'|] eqn:E; [|apply appends_pending_booking_refl].
  eapply Booking_save_appends; [|exact E]. reflexivity.
Qed.

Lemma booking_appends clean db request :
  appends_pending_booking db (snd (booking clean db request)).
Proof.
  unfold booking.
  destruct (is_POST request); [|apply appends_pending_booking_refl].
  destruct (bind_form clean (POST_data request)) as [|errs|f];
    try apply appends_pending_booking_refl.
  destruct (Booking_save db _) as [db'|] eqn:E; [|apply appends_pending_booking_refl].
  eapply Booking_save_appends; [|exact E]. reflexivity.
Qed.

Lemma appends_pending_keeps_sold db db' e :
  appends_pending_booking db db' -> tickets_sold db' e = tickets_sold db e.
Proof.
  intros (_ & _ & _ & _ & [Hsame|(b & Hb & Hst)]).
  - now apply tickets_sold_ext.
  - rewrite <- (tickets_sold_append db e b) by now rewrite Hst.
    apply tickets_sold_ext. now rewrite Hb.
Qed.

(** X2.  Neither booking view ever changes the availability of any event:
    whatever the request, [event_detail] and [booking] leave every table
    but [bookings] as it was, add at most one booking, which is pending,
    and so leave [tickets_sold] and [available_tickets] of every event
    unchanged. *)
Theorem booking_views_keep_availability clean db request slug e :
  let db1 := snd (event_detail clean db request slug) in
  let db2 := snd (booking clean db request) in
  appends_pending_booking db db1 /\ appends_pending_booking db db2
  /\ tickets_sold db1 e = tickets_sold db e
  /\ available_tickets db1 e = available_tickets db e
  /\ tickets_sold db2 e = tickets_sold db e
  /\ available_tickets db2 e = available_tickets db e.
Proof.
  cbv zeta.
  pose proof (event_detail_appends clean db request slug) as H1.
  pose proof (booking_appends clean db request) as H2.
  unfold available_tickets.
  rewrite (appends_pending_keeps_sold _ _ e H1), (appends_pending_keeps_sold _ _ e H2).
  auto 6.
Qed.

(** X3.  A request that [event_detail] accepts is accepted again when it is
    repeated: accepted bookings are pending and do not use up the tickets
    the guard counts. *)
Theorem event_detail_accepts_again clean db request slug
  (Haccepted : fst (event_detail clean db request slug)
               = Render "event_detail.html" true []) :
  fst (event_detail clean (snd (event_detail clean db request slug)) request slug)
  = Render "event_detail.html" true [].
Proof.
  pose proof (event_detail_appends clean db request slug) as Happ.
  pose proof (fun e => appends_pending_keeps_sold _ _ e Happ) as Hsold.
  destruct Happ as (Hev & _).
  revert Haccepted Hev Hsold. generalize (snd (event_detail clean db request slug)).
  intros db' Haccepted Hev Hsold. unfold event_detail in *. rewrite Hev.
  destruct (get_active_event (events db) slug) as [event|]; [|discriminate].
  destruct (is_POST request); [|discriminate].
  destruct (bind_form clean (POST_data request)) as [|errs|f]; try discriminate.
  unfold available_tickets in *. rewrite Hsold.
  destruct (_ >? _); [discriminate|].
  unfold Booking_save in *.
  destruct (PositiveIntegerField_ok _); [reflexivity|discriminate].
Qed.

Lemma event_detail_accepts_again_witness :
  let once := event_detail Reference.BookingForm_clean sample_db (post two_tickets)
                           "harvest-fest" in
  let twice := event_detail Reference.BookingForm_clean (snd once) (post two_tickets)
                            "harvest-fest" in
  fst twice = Render "event_detail.html" true []
  /\ List.length (bookings (snd twice)) = 3%nat
  /\ available_tickets (snd twice) harvest_fest = 2.
Proof.
  cbv zeta. split; [|split; reflexivity].
  apply (event_detail_accepts_again Reference.BookingForm_clean sample_db
           (post two_tickets) "harvest-fest"). reflexivity.
Defined.

Lemma find_by_unique_slug {A} (f : A -> string) (l : list A) (a : A) :
  NoDup (map f l) -> In a l ->
  find (fun x => String.eqb (f x) (f a)) l = Some a.
Proof.
  induction l as [|x l IH]; simpl; intros Hnd Hin; [contradiction|].
  inversion Hnd as [|? ? Hnotin Hrest]; subst.
  destruct Hin as [->|Hin].
  - now rewrite String.eqb_refl.
  - destruct (String.eqb (f x) (f a)) eqn:E; [|now apply IH].
    apply String.eqb_eq in E. elim Hnotin. rewrite E. now apply in_map.
Qed.

(** X4.  For a stored event that is not active (slugs being unique), the
    event page answers 404 and writes nothing, whatever is posted, while the
    general booking form given that event's slug attaches the booking to
    the event and saves it. *)
Theorem inactive_event_bookable_through_booking clean db request e f
  (Hunique : NoDup (map event_slug (events db)))
  (Hstored : In e (events db))
  (Hinactive : event_is_active e = false)
  (Hpost : is_POST request = true)
  (Hvalid : bind_form clean (POST_data request) = Valid f)
  (Hslug : QueryDict_get (POST_data request) "event_slug" = Some (event_slug e))
  (Hnonempty : event_slug e <> "")
  (Hrange : PositiveIntegerField_ok (bf_tickets f) = true) :
  event_detail clean db request (event_slug e) = (Http404, db)
  /\ booking clean db request =
       (Render "booking.html" true [],
        with_bookings db (bookings db ++ [booking_of_form f (event_pk e)])).
Proof.
  split.
  - unfold event_detail, get_active_event.
    destruct (find _ (events db)) as [e'|] eqn:E; [|reflexivity].
    apply find_some in E as [Hin Hb]. apply andb_true_iff in Hb as [Hs Hact].
    apply String.eqb_eq in Hs.
    assert (e' = e) as -> by (apply (NoDup_map_injective event_slug (events db)); auto).
    congruence.
  - unfold booking. rewrite Hpost, Hvalid, Hslug.
    destruct (event_slug e) as [|c s] eqn:Es; [congruence|].
    unfold first_event. rewrite <- Es.
    rewrite (find_by_unique_slug event_slug _ e Hunique Hstored).
    unfold Booking_save, booking_of_form. simpl booking_tickets. now rewrite Hrange.
Qed.

Lemma inactive_event_bookable_through_booking_witness :
  let request := post (two_tickets ++ [("event_slug", "barn-dance")])%list in
  event_detail Reference.BookingForm_clean closed_db request "barn-dance"
    = (Http404, closed_db)
  /\ booking Reference.BookingForm_clean closed_db request
    = (Render "booking.html" true [],
       with_bookings closed_db
         [mkBooking "Cy" "cy@x.com" "2025-10-03" 2 (Some 2) "" Pending]).
Proof.
  cbv zeta.
  refine (inactive_event_bookable_through_booking Reference.BookingForm_clean
            closed_db (post (two_tickets ++ [("event_slug", "barn-dance")])%list)
            barn_dance (mkBookingFields "Cy" "cy@x.com" "2025-10-03" 2 "")
            _ _ eq_refl eq_refl eq_refl eq_refl _ eq_refl).
  - repeat constructor; simpl; intuition discriminate.
  - right. left. reflexivity.
  - discriminate.
Defined.

(** X5.  A valid booking posted to the general form without an
    [event_slug], with an empty one, or with one that names no stored event
    is saved as a booking with no event. *)
Theorem booking_without_event clean db request f
  (Hpost : is_POST request = true)
  (Hvalid : bind_form clean (POST_data request) = Valid f)
  (Hrange : PositiveIntegerField_ok (bf_tickets f) = true)
  (Hslug : QueryDict_get (POST_data request) "event_slug" = None
           \/ QueryDict_get (POST_data request) "event_slug" = Some ""
           \/ exists s, QueryDict_get (POST_data request) "event_slug" = Some s
                        /\ forall e, In e (events db) -> event_slug e <> s) :
  booking clean db request =
    (Render "booking.html" true [],
     with_bookings db (bookings db ++ [booking_of_form f None])).
Proof.
  unfold booking. rewrite Hpost, Hvalid.
  assert (Hnone : match QueryDict_get (POST_data request) "event_slug" with
                  | Some (String c s) =>
                      match first_event (events db) (String c s) with
                      | Some e => event_pk e
                      | None => None
                      end
                  | _ => None
                  end = None).
  { destruct Hslug as [->|[->|(s & -> & Hs)]]; try reflexivity.
    destruct s as [|c s]; [reflexivity|].
    unfold first_event. destruct (find _ (events db)) as [e|] eqn:E; [|reflexivity].
    apply find_some in E as [Hin Heq]. apply String.eqb_eq in Heq.
    now elim (Hs e Hin). }
  rewrite Hnone. unfold Booking_save, booking_of_form. simpl booking_tickets.
  now rewrite Hrange.
Qed.

Lemma booking_without_event_witness :
  booking Reference.BookingForm_clean sample_db
          (post (two_tickets ++ [("event_slug", "spring-fair")])%list)
  = (Render "booking.html" true [],
     with_bookings sample_db
       (bookings sample_db ++
        [mkBooking "Cy" "cy@x.com" "2025-10-03" 2 None "" Pending])%list).
Proof.
  refine (booking_without_event Reference.BookingForm_clean sample_db
            (post (two_tickets ++ [("event_slug", "spring-fair")])%list)
            (mkBookingFields "Cy" "cy@x.com" "2025-10-03" 2 "")
            eq_refl eq_refl eq_refl _).
  right. right. exists "spring-fair". split; [reflexivity|].
  intros e [<-|[]]. discriminate.
Defined.

(** ** Ordering a single product *)

Lemma first_in_stock_get_product table slug p :
  first_in_stock table slug = Some p -> exists q, get_product table slug = Some q.
Proof.
  intros H. apply first_in_stock_Some in H as (Hin & Hs & _).
  apply get_product_Some_iff. eauto.
Qed.

(** X6.  The product page exists exactly for the slugs the cart resolves:
    [product_detail] answers 404, writing nothing, if and only if no
    in-stock product carries the slug.  In particular an out-of-stock
    product (slugs being unique) has no product page although [cart_add]
    accepts it. *)
Theorem product_detail_serves_resolvable clean db session request slug :
  (fst (product_detail clean db request slug) = Http404
   <-> resolvable (products db) slug = false)
  /\ (resolvable (products db) slug = false ->
      product_detail clean db request slug = (Http404, db))
  /\ (forall p, In p (products db) -> product_slug p = slug ->
        product_in_stock p = false ->
        NoDup (map product_slug (products db)) ->
        product_detail clean db request slug = (Http404, db)
        /\ fst (cart_add db session request slug) = Redirect "cart").
Proof.
  assert (Hnone : resolvable (products db) slug = false ->
                  product_detail clean db request slug = (Http404, db)).
  { unfold resolvable, product_detail.
    destruct (first_in_stock (products db) slug); [discriminate|reflexivity]. }
  split; [|split].
  - split.
    + intros H. unfold resolvable. unfold product_detail in H.
      destruct (first_in_stock (products db) slug) as [p|]; [|reflexivity].
      exfalso.
      destruct (is_POST request);
        destruct (bind_form clean (POST_data request)); simpl in H; try discriminate.
      destruct (Order_objects_create db _); discriminate.
    + intros H. now rewrite (Hnone H).
  - exact Hnone.
  - intros p Hin Hs Hout Hnd. split.
    + apply Hnone. unfold resolvable.
      destruct (first_in_stock (products db) slug) as [q|] eqn:E; [|reflexivity].
      apply first_in_stock_Some in E as (Hq & Hqs & Hstock).
      assert (q = p) as ->
        by (apply (NoDup_map_injective product_slug (products db)); congruence).
      congruence.
    + destruct (proj2 (get_product_Some_iff (products db) slug)) as [q Hq]; [eauto|].
      now rewrite (cart_add_found _ _ _ _ _ Hq).
Qed.

Lemma product_detail_serves_resolvable_witness :
  product_detail Reference.OrderForm_clean sample_db (post jane_order) "goat-milk"
    = (Http404, sample_db)
  /\ fst (cart_add sample_db None (post jane_order) "goat-milk") = Redirect "cart".
Proof.
  refine (proj2 (proj2
    (product_detail_serves_resolvable Reference.OrderForm_clean sample_db None
       (post jane_order) "goat-milk")) goat_milk _ eq_refl eq_refl _).
  - right. left. reflexivity.
  - repeat constructor; simpl; intuition discriminate.
Defined.

(** X7.  Ordering [q] of an in-stock product from its page writes the same
    row as checking out a cart that holds only that product with quantity
    [q]: one pending order for the product with the buyer's details. *)
Theorem product_detail_matches_single_item_checkout clean db request slug p f
  (Hp : first_in_stock (products db) slug = Some p)
  (Hpost : is_POST request = true)
  (Hvalid : bind_form clean (POST_data request) = Valid f)
  (Hrange : PositiveIntegerField_ok (of_quantity f) = true) :
  let ordered :=
    with_orders db
      (orders db ++ [mkOrder (product_pk p) (of_name f) (of_email f)
                             (of_quantity f) (of_notes f) OrderPending]) in
  product_detail clean db request slug = (Render "product_detail.html" true [], ordered)
  /\ cart_view clean db (Some [(slug, of_quantity f)]) request
     = (CartRendered (mkCartPage [] 0 true []), ordered, Some []).
Proof.
  cbv zeta. split.
  - unfold product_detail. rewrite Hp, Hpost, Hvalid.
    unfold Order_objects_create. simpl order_quantity. now rewrite Hrange.
  - unfold cart_view, resolve. simpl. rewrite Hp, Hpost, Hvalid. simpl.
    unfold Order_objects_create. simpl order_quantity. now rewrite Hrange.
Qed.

Lemma product_detail_matches_single_item_checkout_witness :
  snd (product_detail Reference.OrderForm_clean sample_db
         (post [("name", "Jane"); ("email", "jane@x.com"); ("quantity", "4")])
         "fresh-eggs")
  = snd (fst (cart_view Reference.OrderForm_clean sample_db
                (Some [("fresh-eggs", 4)])
                (post [("name", "Jane"); ("email", "jane@x.com"); ("quantity", "4")]))).
Proof.
  destruct (product_detail_matches_single_item_checkout Reference.OrderForm_clean
              sample_db
              (post [("name", "Jane"); ("email", "jane@x.com"); ("quantity", "4")])
              "fresh-eggs" fresh_eggs (mkOrderFields "Jane" "jane@x.com" 4 "")
              eq_refl eq_refl eq_refl eq_refl) as [H1 H2].
  simpl of_quantity in H2. rewrite H1, H2. reflexivity.
Defined.

(** ** More on the cart *)

Lemma dict_set_keys_incl {V} (d : Py.dict V) k v k0 :
  In k0 (Py.keys d) -> In k0 (Py.keys (Py.dict_set d k v)).
Proof.
  unfold Py.keys. induction d as [|[k' v'] d IH]; simpl; [contradiction|].
  destruct (String.eqb k' k) eqn:E; simpl.
  - apply String.eqb_eq in E. subst. tauto.
  - intros [H|H]; auto.
Qed.

Lemma dict_set_length {V} (d : Py.dict V) k v :
  (List.length d <= List.length (Py.dict_set d k v) <= S (List.length d))%nat.
Proof.
  induction d as [|[k' v'] d IH]; simpl; [lia|].
  destruct (String.eqb k' k); simpl; lia.
Qed.

(** X8.  [cart_add] touches one entry only: the quantity of every other
    slug is as before, no slug is ever removed from the cart, the cart
    grows by at most one entry, and its keys stay pairwise distinct. *)
Theorem cart_add_frame db session request slug :
  let cart := session_cart session in
  let cart' := session_cart (snd (cart_add db session request slug)) in
  (forall k, k <> slug -> Py.dict_get cart' k = Py.dict_get cart k)
  /\ (forall k, In k (Py.keys cart) -> In k (Py.keys cart'))
  /\ (List.length cart <= List.length cart' <= S (List.length cart))%nat
  /\ (Py.dict_wf cart -> Py.dict_wf cart').
Proof.
  cbv zeta. unfold cart_add.
  destruct (get_product (products db) slug) as [p|]; cbn [snd session_cart].
  - repeat apply conj.
    + intros k Hk. now apply dict_get_set_other.
    + intros k. apply dict_set_keys_incl.
    + apply dict_set_length.
    + apply dict_set_length.
    + apply dict_set_wf.
  - repeat apply conj; auto.
Qed.

Lemma dict_get_default_skip (d : Py.dict Z) k v slug :
  String.eqb k slug = false ->
  Py.dict_get_default ((k, v) :: d) slug 0 = Py.dict_get_default d slug 0.
Proof. intros E. unfold Py.dict_get_default. simpl. now rewrite E. Qed.

Lemma exact_amount_app l1 l2 :
  exact_amount (l1 ++ l2) = exact_amount l1 + exact_amount l2.
Proof. unfold exact_amount. now rewrite map_app, sum_app. Qed.

Lemma exact_amount_entry table slug v :
  exact_amount (entry_items table (slug, v))
  = match first_in_stock table slug with
    | Some p => product_price p * v
    | None => 0
    end.
Proof.
  unfold entry_items, exact_amount. simpl fst. simpl snd.
  destruct (first_in_stock table slug); unfold sum; simpl; lia.
Qed.

Lemma exact_amount_dict_set table slug q : forall cart,
  exact_amount (flat_map (entry_items table)
                  (Py.dict_set cart slug (Py.dict_get_default cart slug 0 + q)))
  = exact_amount (flat_map (entry_items table) cart)
    + match first_in_stock table slug with
      | Some p => product_price p * q
      | None => 0
      end.
Proof.
  induction cart as [|[k v] cart IH].
  - simpl Py.dict_set. simpl flat_map. rewrite app_nil_r, exact_amount_entry.
    unfold Py.dict_get_default, exact_amount, sum. simpl.
    destruct (first_in_stock table slug); lia.
  - simpl Py.dict_set. destruct (String.eqb k slug) eqn:E.
    + apply String.eqb_eq in E. subst k. simpl flat_map.
      rewrite !exact_amount_app, !exact_amount_entry.
      unfold Py.dict_get_default. simpl. rewrite String.eqb_refl.
      destruct (first_in_stock table slug); lia.
    + rewrite (dict_get_default_skip cart k v slug E). simpl flat_map.
      rewrite !exact_amount_app, IH. lia.
Qed.

Lemma entry_items_dict_set_unresolvable table slug : forall cart v,
  first_in_stock table slug = None ->
  flat_map (entry_items table) (Py.dict_set cart slug v)
  = flat_map (entry_items table) cart.
Proof.
  intros cart v Hnone.
  assert (Hentry : forall w, entry_items table (slug, w) = []).
  { intros w. unfold entry_items. simpl. now rewrite Hnone. }
  induction cart as [|[k w] cart IH]; simpl.
  - now rewrite Hentry.
  - destruct (String.eqb k slug) eqn:E; simpl.
    + apply String.eqb_eq in E. subst k. now rewrite !Hentry.
    + now rewrite IH.
Qed.

(** X9.  Adding a product leaves the cart total as it was when no in-stock
    product carries the slug (out of stock, or the add was refused with a
    404).  When an in-stock product carries it and the amounts in the cart
    stay within 28 significant digits before and after, the total changes
    by exactly [price * quantity]. *)
Theorem cart_add_changes_total db session request slug :
  let items s := fst (resolve (products db) (session_cart s)) in
  let total s := snd (resolve (products db) (session_cart s)) in
  let session' := snd (cart_add db session request slug) in
  ((get_product (products db) slug = None
    \/ first_in_stock (products db) slug = None) ->
   total session' = total session)
  /\ (forall p,
        first_in_stock (products db) slug = Some p ->
        gross_amount (items session) < 10 ^ 28 ->
        gross_amount (items session') < 10 ^ 28 ->
        total session' = total session + product_price p * requested_quantity request).
Proof.
  cbv zeta. split.
  - intros Hnone. unfold cart_add.
    destruct (get_product (products db) slug) as [p0|]; [|reflexivity].
    destruct Hnone as [Hnone|Hnone]; [discriminate|].
    cbn [snd session_cart]. rewrite !resolve_flat_map. simpl snd.
    now rewrite (entry_items_dict_set_unresolvable _ _ _ _ Hnone).
  - intros p Hp Hbefore Hafter.
    destruct (resolve_exact _ _ Hbefore) as (_ & _ & ->).
    destruct (resolve_exact _ _ Hafter) as (_ & _ & ->).
    destruct (first_in_stock_get_product _ _ _ Hp) as [q Hq].
    rewrite (cart_add_found _ _ _ _ _ Hq). cbn [snd session_cart].
    rewrite !resolve_flat_map. simpl fst.
    now rewrite exact_amount_dict_set, Hp.
Qed.

Lemma cart_add_changes_total_witness :
  snd (resolve (products sample_db)
         (session_cart (snd (cart_add sample_db (Some [("fresh-eggs", 2)])
                               (post [("quantity", "3")]) "fresh-eggs"))))
  = snd (resolve (products sample_db) [("fresh-eggs", 2)]) + 500 * 3.
Proof.
  refine (proj2 (cart_add_changes_total sample_db (Some [("fresh-eggs", 2)])
                   (post [("quantity", "3")]) "fresh-eggs") fresh_eggs eq_refl _ _);
    reflexivity.
Defined.

(** X10.  Adding a product twice to an empty session and then checking out
    with a valid form creates exactly one pending order for that product,
    for the sum of the two quantities, and empties the cart. *)
Theorem add_twice_then_checkout clean db r1 r2 checkout slug p f
  (Hp : first_in_stock (products db) slug = Some p)
  (Hpost : is_POST checkout = true)
  (Hvalid : bind_form clean (POST_data checkout) = Valid f)
  (Hrange : PositiveIntegerField_ok
              (requested_quantity r1 + requested_quantity r2) = true) :
  let s1 := snd (cart_add db None r1 slug) in
  let s2 := snd (cart_add db s1 r2 slug) in
  cart_view clean db s2 checkout =
    (CartRendered (mkCartPage [] 0 true []),
     with_orders db
       (orders db ++
        [mkOrder (product_pk p) (of_name f) (of_email f)
                 (requested_quantity r1 + requested_quantity r2) (of_notes f)
                 OrderPending]),
     Some []).
Proof.
  cbv zeta. destruct (first_in_stock_get_product _ _ _ Hp) as [q Hq].
  rewrite !(cart_add_found _ _ _ _ _ Hq). simpl snd. simpl session_cart.
  unfold Py.dict_get_default. simpl. rewrite String.eqb_refl.
  unfold cart_view, resolve. simpl. rewrite Hp, Hpost, Hvalid. simpl.
  unfold Order_objects_create. simpl order_quantity. now rewrite Hrange.
Qed.

Lemma add_twice_then_checkout_witness :
  let s1 := snd (cart_add sample_db None (post [("quantity", "2")]) "fresh-eggs") in
  let s2 := snd (cart_add sample_db s1 (post [("quantity", "3")]) "fresh-eggs") in
  s2 = Some [("fresh-eggs", 5)]
  /\ cart_view Reference.OrderForm_clean sample_db s2 (post jane_order)
     = (CartRendered (mkCartPage [] 0 true []),
        with_orders sample_db [mkOrder (Some 1) "Jane" "jane@x.com" 5 "" OrderPending],
        Some []).
Proof.
  cbv zeta. split; [reflexivity|].
  exact (add_twice_then_checkout Reference.OrderForm_clean sample_db
           (post [("quantity", "2")]) (post [("quantity", "3")]) (post jane_order)
           "fresh-eggs" fresh_eggs (mkOrderFields "Jane" "jane@x.com" 1 "")
           eq_refl eq_refl eq_refl eq_refl).
Defined.

(** X11.  Checkout is not all-or-nothing when the store refuses a row: if
    the resolved items up to some item are storable and that item's
    quantity is not, the view ends in an error with one order written for
    each earlier item, none for the refused item or the later ones, and
    the cart still in the session. *)
Theorem checkout_interrupted_keeps_earlier_orders clean db session request f
  good bad rest
  (Hpost : is_POST request = true)
  (Hvalid : bind_form clean (POST_data request) = Valid f)
  (Hitems : fst (resolve (products db) (session_cart session)) = (good ++ bad :: rest)%list)
  (Hgood : Forall storable good)
  (Hbad : PositiveIntegerField_ok (item_quantity bad) = false) :
  cart_view clean db session request =
    (CartError, with_orders db (orders db ++ map (order_of_item f) good), session).
Proof.
  unfold cart_view. rewrite Hpost, Hvalid.
  destruct (resolve (products db) (session_cart session)) as [items total].
  simpl fst in Hitems. subst items.
  rewrite (create_orders_interrupted f good bad rest db Hgood Hbad).
  destruct good; reflexivity.
Qed.

Lemma checkout_interrupted_keeps_earlier_orders_witness :
  cart_view Reference.OrderForm_clean two_products_db
            (Some [("fresh-eggs", 1); ("seedlings", -1)]) (post jane_order)
  = (CartError,
     with_orders two_products_db [mkOrder (Some 1) "Jane" "jane@x.com" 1 "" OrderPending],
     Some [("fresh-eggs", 1); ("seedlings", -1)]).
Proof.
  refine (checkout_interrupted_keeps_earlier_orders Reference.OrderForm_clean
            two_products_db (Some [("fresh-eggs", 1); ("seedlings", -1)])
            (post jane_order) (mkOrderFields "Jane" "jane@x.com" 1 "")
            [mkItem fresh_eggs 1 500]
            (mkItem (mkProduct (Some 3) "Seedlings" "seedlings" 250 true) (-1) (-250))
            [] eq_refl eq_refl eq_refl _ eq_refl).
  repeat constructor.
Defined.

(** ** More on the newsletter *)

Lemma existsb_email_false_iff email l :
  existsb (fun s => String.eqb (subscriber_email s) email) l = false
  <-> ~ In email (map subscriber_email l).
Proof.
  induction l as [|x l IH]; simpl; [tauto|].
  rewrite orb_false_iff, IH, String.eqb_neq. tauto.
Qed.

(** X12.  [newsletter_subscribe] keeps the stored emails pairwise distinct:
    whatever is posted, it leaves the subscribers as they are or appends one
    row whose email was not stored, and it touches no other table. *)
Theorem newsletter_keeps_emails_distinct clean db request
  (Hdistinct : NoDup (map subscriber_email (subscribers db))) :
  let db' := snd (newsletter_subscribe clean db request) in
  NoDup (map subscriber_email (subscribers db'))
  /\ (subscribers db' = subscribers db
      \/ exists email,
           subscribers db' = (subscribers db ++ [mkSubscriber email])%list
           /\ ~ In email (map subscriber_email (subscribers db)))
  /\ events db' = events db /\ bookings db' = bookings db
  /\ products db' = products db /\ orders db' = orders db.
Proof.
  cbv zeta. unfold newsletter_subscribe.
  destruct (is_POST request); [|simpl; auto 8].
  destruct (bind_form (NewsletterForm_clean clean db) (POST_data request))
    as [|errs|email] eqn:E; [simpl; auto 8..|].
  unfold get_or_create.
  destruct (existsb _ (subscribers db)) eqn:Hex; [simpl; auto 8|].
  simpl. apply existsb_email_false_iff in Hex. repeat apply conj; auto.
  - rewrite map_app. simpl.
    apply NoDup_app; [exact Hdistinct|repeat constructor; intros []|].
    intros a Ha [<-|[]]. contradiction.
  - right. eauto.
Qed.

Lemma newsletter_keeps_emails_distinct_witness :
  NoDup (map subscriber_email
           (subscribers (snd (newsletter_subscribe Reference.clean_email sample_db signup)))).
Proof.
  apply (newsletter_keeps_emails_distinct Reference.clean_email sample_db signup).
  constructor.
Defined.

Lemma newsletter_subscribe_cases clean db request :
  snd (newsletter_subscribe clean db request) = db
  \/ exists email,
       clean (POST_data request) = inr email
       /\ snd (newsletter_subscribe clean db request)
          = with_subscribers db (subscribers db ++ [mkSubscriber email]).
Proof.
  unfold newsletter_subscribe, bind_form, NewsletterForm_clean.
  destruct (is_POST request); [|now left].
  destruct (POST_data request) as [|x data]; [now left|].
  destruct (clean (x :: data)) as [errs|email]; [now left|].
  unfold get_or_create.
  destruct (existsb _ (subscribers db)) eqn:Hex; [now left|].
  right. exists email. split; [reflexivity|]. cbn iota beta. now rewrite Hex.
Qed.

Lemma newsletter_subscribe_stored clean db request email :
  clean (POST_data request) = inr email ->
  existsb (fun s => String.eqb (subscriber_email s) email) (subscribers db) = true ->
  snd (newsletter_subscribe clean db request) = db.
Proof.
  intros Hclean Hex. unfold newsletter_subscribe, bind_form, NewsletterForm_clean.
  destruct (is_POST request); [|reflexivity].
  destruct (POST_data request) as [|x data]; [reflexivity|].
  rewrite Hclean, Hex. reflexivity.
Qed.

(** X13.  Posting the same signup request twice leaves the tables exactly
    as posting it once: the second post never writes. *)
Theorem newsletter_subscribe_twice clean db request :
  snd (newsletter_subscribe clean (snd (newsletter_subscribe clean db request)) request)
  = snd (newsletter_subscribe clean db request).
Proof.
  destruct (newsletter_subscribe_cases clean db request) as [H|(email & Hclean & H)];
    rewrite H.
  - exact H.
  - apply (newsletter_subscribe_stored clean _ request email Hclean).
    simpl subscribers. rewrite existsb_app. simpl.
    now rewrite String.eqb_refl, orb_true_r.
Qed.

(** ** Saving rows with automatically assigned slugs *)

Section WriteFacts.

Context {A : Type} `{SlugModel A}.
Variable slugify : string -> string.
Variable set_pk : A -> Z -> A.
Hypothesis pk_set_slug : forall i s, pk (set_slug i s) = pk i.
Hypothesis slug_set_slug : forall i s, slug (set_slug i s) = s.

Lemma held_by_other_new table instance s :
  pk instance = None -> (held_by_other table instance s <-> In s (map slug table)).
Proof.
  intros Hnew. unfold held_by_other. rewrite in_map_iff. split.
  - intros (r & Hin & Hs & _). eauto.
  - intros (r & Hs & Hin). exists r. repeat split; auto.
    intros (key & Hk & _). congruence.
Qed.

Lemma write_row_new table instance new_pk :
  pk instance = None -> ~ In (slug instance) (map slug table) ->
  write_row set_pk table instance new_pk = Some (table ++ [set_pk instance new_pk])%list.
Proof.
  intros Hnew Hfree. unfold write_row.
  destruct (slug_taken table (pk instance) (slug instance)) eqn:E.
  - apply slug_taken_iff, held_by_other_new in E; tauto.
  - rewrite Hnew.
    replace (existsb (fun r => excluded None (pk r)) table) with false; [reflexivity|].
    symmetry. clear. induction table as [|r table IH]; simpl; [reflexivity|].
    rewrite <- IH. unfold excluded, same_key. now destruct (pk r).
Qed.

(** Saving a new instance with a blank slug: the receiver picks the first
    candidate no stored row holds and the write appends the row. *)
Lemma save_new_row table instance value new_pk :
  pk instance = None ->
  exists k, (k <= List.length table)%nat
    /\ _unique_slugify slugify table instance value
         = Some (set_slug instance (candidate (slugify value) k))
    /\ ~ In (candidate (slugify value) k) (map slug table)
    /\ (forall i, (i < k)%nat -> In (candidate (slugify value) i) (map slug table))
    /\ write_row set_pk table (set_slug instance (candidate (slugify value) k)) new_pk
         = Some (table ++ [set_pk (set_slug instance (candidate (slugify value) k))
                                  new_pk])%list.
Proof.
  intros Hnew.
  destruct (unique_slugify_first_free slugify table instance value)
    as (k & Hk & Hres & Hfree & Hbelow).
  rewrite held_by_other_new in Hfree by exact Hnew.
  exists k. repeat split; auto.
  - intros i Hi. apply (held_by_other_new table instance); auto.
  - apply write_row_new; [now rewrite pk_set_slug|now rewrite slug_set_slug].
Qed.

End WriteFacts.

Lemma find_app_last {A} (test : A -> bool) l x :
  (forall y, In y l -> test y = false) -> test x = true ->
  find test (l ++ [x])%list = Some x.
Proof.
  intros Hl Hx. induction l as [|y l IH]; simpl; [now rewrite Hx|].
  rewrite (Hl y (or_introl eq_refl)). apply IH. intros z Hz. apply Hl. now right.
Qed.

Lemma NoDup_snoc {A} (l : list A) x : NoDup l -> ~ In x l -> NoDup (l ++ [x])%list.
Proof.
  intros Hnd Hx. apply NoDup_app; [exact Hnd|repeat constructor; intros []|].
  intros a Ha [<-|[]]. contradiction.
Qed.

Lemma Product_save_new slugify table name price stock new_pk :
  exists k, (k <= List.length table)%nat
    /\ ~ In (candidate (slugify name) k) (map product_slug table)
    /\ (forall i, (i < k)%nat -> In (candidate (slugify name) i) (map product_slug table))
    /\ Product_save slugify table (mkProduct None name "" price stock) new_pk
       = Some (table ++ [mkProduct (Some new_pk) name (candidate (slugify name) k)
                                   price stock])%list.
Proof.
  destruct (save_new_row (H:=Product_SlugModel) slugify Product_set_pk (fun _ _ => eq_refl)
              (fun _ _ => eq_refl) table (mkProduct None name "" price stock)
              name new_pk eq_refl) as (k & Hk & Hslug & Hfree & Hbelow & Hwrite).
  exists k. repeat split; auto.
  unfold Product_save, set_product_slug. simpl blank. cbv iota.
  simpl product_name. rewrite Hslug. exact Hwrite.
Qed.

(** X14.  An owner or superuser posting a valid product form always gets
    the product created (the save never raises): one row is appended with
    the store's key, the posted name, price and stock flag, and the first of
    [base], [base-1], [base-2], ... that no stored product holds.  Slugs
    that were pairwise distinct stay so, and the new row is the one found
    under its slug. *)
Theorem product_create_appends_unique_slug slugify clean db u request new_pk f
  (Hmay : may_manage u = true)
  (Hpost : is_POST request = true)
  (Hvalid : bind_form clean (POST_data request) = Valid f) :
  exists k,
    let row := mkProduct (Some new_pk) (pf_name f)
                         (candidate (slugify (pf_name f)) k) (pf_price f)
                         (pf_in_stock f) in
    (k <= List.length (products db))%nat
    /\ product_create slugify clean db (Some u) request new_pk
       = (StaffRedirect "owner_dashboard", with_products db (products db ++ [row]))
    /\ ~ In (product_slug row) (map product_slug (products db))
    /\ (forall i, (i < k)%nat ->
          In (candidate (slugify (pf_name f)) i) (map product_slug (products db)))
    /\ (NoDup (map product_slug (products db)) ->
        NoDup (map product_slug (products db ++ [row])%list))
    /\ get_product (products db ++ [row])%list (product_slug row) = Some row.
Proof.
  destruct (Product_save_new slugify (products db) (pf_name f) (pf_price f)
              (pf_in_stock f) new_pk) as (k & Hk & Hfree & Hbelow & Hsave).
  exists k. cbv zeta. repeat apply conj; auto.
  - unfold product_create. rewrite Hmay, Hpost, Hvalid. simpl negb. cbv iota.
    now rewrite Hsave.
  - intros Hnd. rewrite map_app. simpl. now apply NoDup_snoc.
  - unfold get_product. apply find_app_last.
    + intros y Hy. apply String.eqb_neq. intros Heq. apply Hfree.
      simpl product_slug in Heq. rewrite <- Heq. now apply in_map.
    + apply String.eqb_refl.
Qed.

Lemma product_create_appends_unique_slug_witness :
  exists k,
    (k <= 2)%nat
    /\ product_create Reference.slugify plain_ProductForm_clean catalog_db (Some olive)
                      (post new_eggs) 3
       = (StaffRedirect "owner_dashboard",
          with_products catalog_db
            [fresh_eggs; goat_milk;
             mkProduct (Some 3) "Fresh eggs!" (candidate "fresh-eggs" k) 450 true])
    /\ candidate "fresh-eggs" k <> "fresh-eggs".
Proof.
  destruct (product_create_appends_unique_slug Reference.slugify
              plain_ProductForm_clean catalog_db olive (post new_eggs) 3
              (mkProductFields "Fresh eggs!" 450 true) eq_refl eq_refl eq_refl)
    as (k & Hk & Hres & Hfree & _).
  exists k. split; [exact Hk|]. split; [exact Hres|].
  intros Heq. apply Hfree. simpl. left. symmetry. exact Heq.
Defined.

Lemma Event_save_new slugify table title capacity active new_pk :
  exists k, (k <= List.length table)%nat
    /\ ~ In (candidate (slugify title) k) (map event_slug table)
    /\ Event_save slugify table (mkEvent None title "" capacity active) new_pk
       = Some (table ++ [mkEvent (Some new_pk) title (candidate (slugify title) k)
                                 capacity active])%list.
Proof.
  destruct (save_new_row (H:=Event_SlugModel) slugify Event_set_pk (fun _ _ => eq_refl)
              (fun _ _ => eq_refl) table (mkEvent None title "" capacity active)
              title new_pk eq_refl) as (k & Hk & Hslug & Hfree & Hbelow & Hwrite).
  exists k. repeat split; auto.
  unfold Event_save, set_event_slug. simpl blank. cbv iota.
  simpl event_title. rewrite Hslug. exact Hwrite.
Qed.

Lemma Service_save_new slugify table name new_pk :
  exists k, (k <= List.length table)%nat
    /\ ~ In (candidate (slugify name) k) (map service_slug table)
    /\ Service_save slugify table (mkService None name "") new_pk
       = Some (table ++ [mkService (Some new_pk) name (candidate (slugify name) k)])%list.
Proof.
  destruct (save_new_row (H:=Service_SlugModel) slugify Service_set_pk (fun _ _ => eq_refl)
              (fun _ _ => eq_refl) table (mkService None name "")
              name new_pk eq_refl) as (k & Hk & Hslug & Hfree & Hbelow & Hwrite).
  exists k. repeat split; auto.
  unfold Service_save, set_service_slug. simpl blank. cbv iota.
  simpl service_name. rewrite Hslug. exact Hwrite.
Qed.

(** X15.  Events and services are created the same way: for an owner or
    superuser posting a valid form, [event_create] and [service_create]
    never raise and append one row whose slug, taken from the title or
    name, is held by no stored row of the table, so distinct slugs stay
    distinct. *)
Theorem event_and_service_create_append_unique_slug slugify u request new_pk
  (Hmay : may_manage u = true)
  (Hpost : is_POST request = true) :
  (forall clean db f,
      bind_form clean (POST_data request) = Valid f ->
      exists k,
        let row := mkEvent (Some new_pk) (evf_title f)
                           (candidate (slugify (evf_title f)) k) (evf_capacity f)
                           (evf_is_active f) in
        event_create slugify clean db (Some u) request new_pk
        = (StaffRedirect "owner_dashboard", with_events db (events db ++ [row]))
        /\ ~ In (event_slug row) (map event_slug (events db))
        /\ (NoDup (map event_slug (events db)) ->
            NoDup (map event_slug (events db ++ [row])%list)))
  /\ (forall clean table f,
      bind_form clean (POST_data request) = Valid f ->
      exists k,
        let row := mkService (Some new_pk) (sf_name f)
                             (candidate (slugify (sf_name f)) k) in
        service_create slugify clean table (Some u) request new_pk
        = (StaffRedirect "owner_dashboard", (table ++ [row])%list)
        /\ ~ In (service_slug row) (map service_slug table)
        /\ (NoDup (map service_slug table) ->
            NoDup (map service_slug (table ++ [row])%list))).
Proof.
  split.
  - intros clean db f Hvalid.
    destruct (Event_save_new slugify (events db) (evf_title f) (evf_capacity f)
                (evf_is_active f) new_pk) as (k & Hk & Hfree & Hsave).
    exists k. cbv zeta. repeat apply conj; auto.
    + unfold event_create. rewrite Hmay, Hpost, Hvalid. simpl negb. cbv iota.
      now rewrite Hsave.
    + intros Hnd. rewrite map_app. simpl. now apply NoDup_snoc.
  - intros clean table f Hvalid.
    destruct (Service_save_new slugify table (sf_name f) new_pk)
      as (k & Hk & Hfree & Hsave).
    exists k. cbv zeta. repeat apply conj; auto.
    + unfold service_create. rewrite Hmay, Hpost, Hvalid. simpl negb. cbv iota.
      now rewrite Hsave.
    + intros Hnd. rewrite map_app. simpl. now apply NoDup_snoc.
Qed.

Lemma event_and_service_create_append_unique_slug_witness :
  exists k,
    event_create Reference.slugify plain_EventForm_clean catalog_db (Some root_user)
                 (post new_fest) 2
    = (StaffRedirect "owner_dashboard",
       with_events catalog_db
         [harvest_fest;
          mkEvent (Some 2) "Harvest Fest" (candidate "harvest-fest" k) 25 true])
    /\ candidate "harvest-fest" k <> "harvest-fest".
Proof.
  destruct (event_and_service_create_append_unique_slug Reference.slugify root_user
              (post new_fest) 2 eq_refl eq_refl) as [Hevent _].
  destruct (Hevent plain_EventForm_clean catalog_db
              (mkEventFields "Harvest Fest" 25 true) eq_refl) as (k & Hres & Hfree & _).
  exists k. split; [exact Hres|].
  intros Heq. apply Hfree. simpl. left. symmetry. exact Heq.
Defined.

(** ** Editing a product *)

Lemma blank_false s : s <> "" -> blank s = false.
Proof. destruct s; [congruence|reflexivity]. Qed.

Lemma same_key_true_iff a b : same_key a b = true <-> exists key, a = Some key /\ b = Some key.
Proof.
  unfold same_key. destruct a as [x|], b as [y|]; split;
    try discriminate; try (intros (key & H1 & H2); discriminate).
  - intros E. apply Z.eqb_eq in E. subst. eauto.
  - intros (key & H1 & H2). inversion H1; inversion H2; subst. apply Z.eqb_refl.
Qed.

Lemma find_map_preserving {A} (test : A -> bool) (g : A -> A) l :
  (forall x, In x l -> test (g x) = test x) ->
  find test (map g l) = option_map g (find test l).
Proof.
  induction l as [|x l IH]; simpl; intros Hg; [reflexivity|].
  rewrite (Hg x (or_introl eq_refl)). destruct (test x); [reflexivity|].
  apply IH. intros y Hy. apply Hg. now right.
Qed.

(** X16.  Editing a stored product (non-empty slug, slugs and keys unique)
    as an owner with a valid form never raises and rewrites that row only:
    name, price and stock flag come from the form, while the key and the
    slug stay, so every slug of the table is unchanged and the product is
    still found under the slug it had before it was renamed. *)
Theorem product_edit_keeps_slug slugify clean db u request s new_pk old f key
  (Hmay : may_manage u = true)
  (Hpost : is_POST request = true)
  (Hvalid : bind_form clean (POST_data request) = Valid f)
  (Hfound : get_product (products db) s = Some old)
  (Hkey : product_pk old = Some key)
  (Hnonempty : s <> "")
  (Hslugs : NoDup (map product_slug (products db)))
  (Hkeys : NoDup (map product_pk (products db))) :
  let table' :=
    map (fun r => if same_key (product_pk r) (product_pk old)
                  then edited_product old f else r) (products db) in
  product_edit slugify clean db (Some u) request s new_pk
    = (StaffRedirect "owner_dashboard", with_products db table')
  /\ map product_slug table' = map product_slug (products db)
  /\ map product_pk table' = map product_pk (products db)
  /\ (forall r, In r (products db) -> r <> old -> In r table')
  /\ get_product table' s = Some (edited_product old f).
Proof.
  cbv zeta. unfold get_product in Hfound.
  pose proof (find_some _ _ Hfound) as [Hin Hs]. apply String.eqb_eq in Hs.
  assert (Hsame : forall r, In r (products db) ->
            same_key (product_pk r) (product_pk old) = true -> r = old).
  { intros r Hr E. apply same_key_true_iff in E as (x & Hx & Hy).
    apply (NoDup_map_injective product_pk (products db)); congruence. }
  assert (Hself : same_key (product_pk old) (product_pk old) = true).
  { apply same_key_true_iff. eauto. }
  repeat apply conj.
  - unfold product_edit, get_product. rewrite Hmay, Hfound, Hpost, Hvalid.
    simpl negb. cbv iota. unfold Product_save, set_product_slug.
    simpl product_slug. rewrite (blank_false (product_slug old)) by congruence.
    unfold write_row.
    replace (slug_taken (products db) _ _) with false.
    + replace (existsb _ (products db)) with true; [reflexivity|].
      symmetry. apply existsb_exists. exists old. split; [exact Hin|exact Hself].
    + symmetry.
      destruct (slug_taken (products db)
                  (pk (edited_product old f)) (slug (edited_product old f))) eqn:E;
        [|exact E].
      apply (slug_taken_iff (products db) (edited_product old f)) in E.
      destruct E as (r & Hr & Hrs & Hother). elim Hother. exists key.
      assert (r = old) as ->
        by (apply (NoDup_map_injective product_slug (products db)); auto).
      auto.
  - rewrite map_map. apply map_ext_in. intros r Hr.
    destruct (same_key (product_pk r) (product_pk old)) eqn:E; [|reflexivity].
    now rewrite (Hsame r Hr E).
  - rewrite map_map. apply map_ext_in. intros r Hr.
    destruct (same_key (product_pk r) (product_pk old)) eqn:E; [|reflexivity].
    now rewrite (Hsame r Hr E).
  - intros r Hr Hne. apply in_map_iff. exists r. split; [|exact Hr].
    destruct (same_key (product_pk r) (product_pk old)) eqn:E; [|reflexivity].
    elim Hne. now apply Hsame.
  - unfold get_product. rewrite find_map_preserving.
    + rewrite Hfound. simpl. now rewrite Hself.
    + intros r Hr. destruct (same_key (product_pk r) (product_pk old)) eqn:E;
        [|reflexivity].
      now rewrite (Hsame r Hr E).
Qed.

Lemma product_edit_keeps_slug_witness :
  product_edit Reference.slugify plain_ProductForm_clean catalog_db (Some olive)
               (post rename_eggs) "fresh-eggs" 9
  = (StaffRedirect "owner_dashboard",
     with_products catalog_db
       [mkProduct (Some 1) "Organic Eggs" "fresh-eggs" 650 true; goat_milk]).
Proof.
  refine (proj1 (product_edit_keeps_slug Reference.slugify plain_ProductForm_clean
            catalog_db olive (post rename_eggs) "fresh-eggs" 9 fresh_eggs
            (mkProductFields "Organic Eggs" 650 true) 1
            eq_refl eq_refl eq_refl eq_refl eq_refl _ _ _)).
  - discriminate.
  - repeat constructor; simpl; intuition discriminate.
  - repeat constructor; simpl; intuition discriminate.
Defined.

(** ** Who may use the staff views *)

(** X17.  A visitor who is not logged in, or a user who is neither a
    superuser nor in the [owner] group, cannot write through any owner
    view: the create and edit views for products, events and services and
    the owner dashboard all answer with a redirect (to the login page for
    an anonymous visitor, to [home] otherwise) and leave the tables as they
    were, whatever is posted. *)
Theorem owner_views_refuse_others slugify pclean eclean sclean db table user
  request slug new_pk
  (Hdenied : forall u, user = Some u -> may_manage u = false) :
  let target := match user with None => LOGIN_URL | Some _ => "home" end in
  product_create slugify pclean db user request new_pk = (StaffRedirect target, db)
  /\ product_edit slugify pclean db user request slug new_pk = (StaffRedirect target, db)
  /\ event_create slugify eclean db user request new_pk = (StaffRedirect target, db)
  /\ event_edit slugify eclean db user request slug new_pk = (StaffRedirect target, db)
  /\ service_create slugify sclean table user request new_pk
     = (StaffRedirect target, table)
  /\ service_edit slugify sclean table user request slug new_pk
     = (StaffRedirect target, table)
  /\ owner_dashboard user = StaffRedirect target.
Proof.
  cbv zeta. unfold product_create, product_edit, event_create, event_edit,
    service_create, service_edit, owner_dashboard.
  destruct user as [u|]; [|repeat split].
  pose proof (Hdenied u eq_refl) as Hno. rewrite Hno. simpl negb. cbv iota.
  unfold may_manage in Hno. apply orb_false_iff in Hno as [-> ->].
  repeat split.
Qed.

Lemma owner_views_refuse_others_witness :
  product_create Reference.slugify plain_ProductForm_clean catalog_db (Some tess)
                 (post new_eggs) 3
    = (StaffRedirect "home", catalog_db)
  /\ tech_dashboard (Some tess) = StaffPage "tech_dashboard.html".
Proof.
  split; [|reflexivity].
  refine (proj1 (owner_views_refuse_others Reference.slugify plain_ProductForm_clean
            plain_EventForm_clean plain_ServiceForm_clean catalog_db []
            (Some tess) (post new_eggs) "" 3 _)).
  intros u Hu. inversion Hu. reflexivity.
Defined.

(** X18.  Where [login_view] sends a user agrees with what the dashboards
    let that user see: a redirect to [tech_dashboard] goes to a user the
    technical dashboard admits, a redirect to [owner_dashboard] to an owner
    whom the technical dashboard would turn away, and a redirect to [home]
    to a user both dashboards turn away and who may not manage content.
    Only a POST whose credentials authenticate logs anyone in. *)
Theorem login_redirect_matches_dashboards authenticate request u target
  (Hlogin : login_view authenticate request = LoggedIn u target) :
  method request = POST
  /\ authenticate (QueryDict_get (POST_data request) "username")
                  (QueryDict_get (POST_data request) "password") = Some u
  /\ ((target = "tech_dashboard"
       /\ tech_dashboard (Some u) = StaffPage "tech_dashboard.html"
       /\ (is_superuser u = true \/ has_group (Some u) "technical_admin" = true))
      \/ (target = "owner_dashboard"
          /\ owner_dashboard (Some u) = StaffPage "owner_dashboard.html"
          /\ tech_dashboard (Some u) = StaffRedirect "home"
          /\ may_manage u = true)
      \/ (target = "home"
          /\ tech_dashboard (Some u) = StaffRedirect "home"
          /\ owner_dashboard (Some u) = StaffRedirect "home"
          /\ may_manage u = false)).
Proof.
  unfold login_view in Hlogin.
  destruct (method request); [discriminate|].
  destruct (authenticate _ _) as [user|]; [|discriminate].
  unfold tech_dashboard, owner_dashboard, may_manage, has_group.
  destruct (is_superuser user) eqn:Hsu;
    destruct (in_group user "technical_admin") eqn:Hta;
    destruct (in_group user "owner") eqn:Hown;
    simpl in Hlogin; inversion Hlogin; subst;
    rewrite ?Hsu, ?Hta, ?Hown; simpl; auto 10.
Qed.

Lemma login_redirect_matches_dashboards_witness :
  login_view plain_authenticate (post [("username", "olive"); ("password", "pw")])
    = LoggedIn olive "owner_dashboard"
  /\ owner_dashboard (Some olive) = StaffPage "owner_dashboard.html"
  /\ login_view plain_authenticate (post [("username", "olive"); ("password", "no")])
    = LoginPage (Some "Invalid username or password").
Proof.
  split; [reflexivity|]. split; [|reflexivity].
  destruct (login_redirect_matches_dashboards plain_authenticate
              (post [("username", "olive"); ("password", "pw")]) olive
              "owner_dashboard" eq_refl) as (_ & _ & [(H & _)|[(_ & H & _)|(H & _)]]);
    [discriminate|exact H|discriminate].
Defined.

(** ** Creating several products with colliding names *)

Lemma save_products_colliding slugify slug_base : forall batch m table,
  (forall j, In (candidate slug_base j) (map product_slug table) <-> (j < m)%nat) ->
  Forall (fun entry => product_pk (fst entry) = None
                       /\ product_slug (fst entry) = ""
                       /\ slugify (product_name (fst entry)) = slug_base) batch ->
  exists rows,
    save_products slugify table batch = Some (table ++ rows)%list
    /\ map product_slug rows = map (candidate slug_base) (seq m (List.length batch))
    /\ map product_name rows = map (fun entry => product_name (fst entry)) batch
    /\ map product_pk rows = map (fun entry => Some (snd entry)) batch.
Proof.
  induction batch as [|[instance new_pk] batch IH]; intros m table Hheld Hall.
  - exists []. simpl. now rewrite app_nil_r.
  - inversion Hall as [|? ? Hhead Hrest]; subst. destruct Hhead as (Hpk & Hslug & Hbase).
    destruct instance as [ipk name islug price stock]. simpl in Hpk, Hslug, Hbase.
    subst ipk islug slug_base.
    destruct (Product_save_new slugify table name price stock new_pk)
      as (k & Hk & Hfree & Hbelow & Hsave).
    assert (k = m) as ->.
    { destruct (Nat.lt_trichotomy k m) as [Hlt|[Heq|Hgt]]; [|exact Heq|].
      - elim Hfree. now apply Hheld.
      - pose proof (Hbelow m Hgt) as Hin. apply Hheld in Hin. lia. }
    simpl save_products. rewrite Hsave.
    destruct (IH (S m) (table ++ [mkProduct (Some new_pk) name
                                    (candidate (slugify name) m) price stock])%list)
      as (rows & Hrows & Hslugs & Hnames & Hpks).
    + intros j. rewrite map_app, in_app_iff, Hheld. simpl. split.
      * intros [Hlt|[Heq|[]]]; [lia|]. apply candidate_injective in Heq. lia.
      * intros Hj. destruct (Nat.eq_dec j m) as [->|Hne]; [right; now left|left; lia].
    + exact Hrest.
    + exists (mkProduct (Some new_pk) name (candidate (slugify name) m) price stock
                :: rows).
      rewrite Hrows, <- app_assoc. simpl. rewrite Hslugs, Hnames, Hpks. auto.
Qed.

(** X19.  Saving [n] new products whose names all slugify to the same base,
    into a table where no slug is that base or the base with a numeric
    suffix, never raises and gives them, in order, the slugs [base],
    [base-1], ..., [base-(n-1)], with their names and the keys the store
    assigned. *)
Theorem colliding_products_get_consecutive_suffixes slugify slug_base table batch
  (Hclear : forall j, ~ In (candidate slug_base j) (map product_slug table))
  (Hnew : Forall (fun entry => product_pk (fst entry) = None
                               /\ product_slug (fst entry) = ""
                               /\ slugify (product_name (fst entry)) = slug_base)
                 batch) :
  exists rows,
    save_products slugify table batch = Some (table ++ rows)%list
    /\ map product_slug rows
       = map (candidate slug_base) (seq 0 (List.length batch))
    /\ map product_name rows = map (fun entry => product_name (fst entry)) batch
    /\ map product_pk rows = map (fun entry => Some (snd entry)) batch.
Proof.
  apply save_products_colliding; [|exact Hnew].
  intros j. split; [intros Hin; now elim (Hclear j)|lia].
Qed.

Lemma colliding_products_get_consecutive_suffixes_witness :
  exists rows,
    save_products Reference.slugify [goat_milk]
      [(unsaved "Fresh Eggs", 5); (unsaved "fresh eggs", 6); (unsaved "FRESH -- EGGS!", 7)]
    = Some ([goat_milk] ++ rows)%list
    /\ map product_slug rows = ["fresh-eggs"; "fresh-eggs-1"; "fresh-eggs-2"].
Proof.
  destruct (colliding_products_get_consecutive_suffixes Reference.slugify "fresh-eggs"
              [goat_milk]
              [(unsaved "Fresh Eggs", 5); (unsaved "fresh eggs", 6);
               (unsaved "FRESH -- EGGS!", 7)])
    as (rows & Hsave & Hslugs & _).
  - intros j [Heq|[]]. destruct j as [|j]; [discriminate|].
    unfold candidate, suffixed in Heq. simpl in Heq. discriminate.
  - repeat constructor.
  - exists rows. split; [exact Hsave|exact Hslugs].
Defined.

(** ** The blog editor *)

(** X20.  [blog_edit] asks only for a logged-in user, never for a group:
    for any user at all, a valid POST without an id appends a post with the
    store's key; with the id of a stored post (keys unique) it rewrites the
    title and content of that post only and keeps its key; an id that is
    not stored answers 404 and changes nothing.  An anonymous visitor is
    sent to the login page and nothing is written. *)
Theorem blog_edit_open_to_any_user clean posts u request new_pk f
  (Hpost : is_POST request = true)
  (Hvalid : bind_form clean (POST_data request) = Valid f) :
  blog_edit clean posts (Some u) request None new_pk
    = (StaffRedirect "blog_list",
       (posts ++ [mkBlogPost (Some new_pk) (blf_title f) (blf_content f)])%list)
  /\ (forall id old,
        get_post posts id = Some old ->
        NoDup (map post_pk posts) ->
        let posts' := snd (blog_edit clean posts (Some u) request (Some id) new_pk) in
        fst (blog_edit clean posts (Some u) request (Some id) new_pk)
          = StaffRedirect "blog_list"
        /\ get_post posts' id = Some (mkBlogPost (Some id) (blf_title f) (blf_content f))
        /\ map post_pk posts' = map post_pk posts
        /\ (forall r, In r posts -> r <> old -> In r posts'))
  /\ (forall id, get_post posts id = None ->
        blog_edit clean posts (Some u) request (Some id) new_pk = (StaffNotFound, posts))
  /\ (forall id, blog_edit clean posts None request id new_pk
                 = (StaffRedirect LOGIN_URL, posts)).
Proof.
  split; [|split; [|split]].
  - unfold blog_edit. rewrite Hpost, Hvalid. unfold BlogPost_save. simpl post_pk.
    replace (existsb _ posts) with false; [reflexivity|].
    symmetry. induction posts as [|r posts IH]; simpl; [reflexivity|].
    rewrite <- IH. unfold same_key. now destruct (post_pk r).
  - intros id old Hfound Hkeys. cbv zeta. unfold get_post in Hfound.
    pose proof (find_some _ _ Hfound) as [Hin Hk].
    apply same_key_true_iff in Hk as (key & Hold & Hid). inversion Hid; subst key.
    assert (Hsame : forall r, In r posts -> same_key (post_pk r) (Some id) = true ->
                              r = old).
    { intros r Hr E. apply same_key_true_iff in E as (x & Hx & Hy).
      apply (NoDup_map_injective post_pk posts); congruence. }
    unfold blog_edit, get_post. rewrite Hfound, Hpost, Hvalid. simpl fst. simpl snd.
    unfold BlogPost_save. simpl post_pk. rewrite Hold.
    replace (existsb _ posts) with true.
    2:{ symmetry. apply existsb_exists. exists old. split; [exact Hin|].
        apply same_key_true_iff. eauto. }
    repeat apply conj.
    + reflexivity.
    + rewrite find_map_preserving.
      * rewrite Hfound. simpl. rewrite Hold. simpl. now rewrite Z.eqb_refl.
      * intros r Hr. destruct (same_key (post_pk r) (Some id)) eqn:E; [|exact E].
        simpl. apply Z.eqb_refl.
    + rewrite map_map. apply map_ext_in. intros r Hr.
      destruct (same_key (post_pk r) (Some id)) eqn:E; [|reflexivity].
      rewrite (Hsame r Hr E). simpl. now rewrite Hold.
    + intros r Hr Hne. apply in_map_iff. exists r. split; [|exact Hr].
      destruct (same_key (post_pk r) (Some id)) eqn:E; [|reflexivity].
      elim Hne. now apply Hsame.
  - intros id Hmissing. unfold blog_edit. now rewrite Hmissing.
  - intros id. reflexivity.
Qed.

Lemma blog_edit_open_to_any_user_witness :
  blog_edit plain_BlogForm_clean [spring_post] (Some guest) (post new_post) None 5
    = (StaffRedirect "blog_list",
       [spring_post; mkBlogPost (Some 5) "Summer" "Hay is in."])
  /\ snd (blog_edit plain_BlogForm_clean [spring_post] (Some guest) (post new_post)
                    (Some 4) 5)
     = [mkBlogPost (Some 4) "Summer" "Hay is in."].
Proof.
  split; [|reflexivity].
  exact (proj1 (blog_edit_open_to_any_user plain_BlogForm_clean [spring_post] guest
                  (post new_post) 5 (mkBlogFields "Summer" "Hay is in.")
                  eq_refl eq_refl)).
Defined.
